(** * WebRTC_Video_Streaming: the two console clients

    A shallow embedding of [simple_webrtc_client_stub.cpp] and of
    [build/real_webrtc_client.cpp].  Both programs are straight-line
    sequences of [std::cout << ... << std::endl] statements, one
    [std::cin.get()], and (on Windows builds) a [WSAStartup]/[WSACleanup]
    pair.  A member function is a computation in a small monad that
    threads the process state, collects the events it performs in
    chronological order, and may end by a C++ exception. *)

From Stdlib Require Import String Ascii List ZArith Lia DecimalString.
Import ListNotations.
Open Scope string_scope.
Open Scope list_scope.

(** ** Events, exceptions and the process state *)

(** The member functions of the two classes (one name space: both classes
    use the same names). *)
Inductive method : Type :=
| m_constructor
| m_destructor
| m_InitializeWebRTC
| m_CreatePeerConnection
| m_AddVideoStream
| m_AddAudioStream
| m_CreateOffer
| m_HandleSignaling
| m_StartVideoCapture
| m_RenderVideo
| m_Run.

(** What a run does, as seen from outside.  [Cout s] is one statement
    [std::cout << s1 << ... << sn << std::endl] with [s] the concatenation
    of the inserted pieces: the bytes of [s], a newline, a flush.
    [Enter m] is a ghost event: control entered member function [m]; it
    writes nothing. *)
Inductive event : Type :=
| Cout (s : string)
| Cerr (s : string)
| CinGet (c : option ascii)
| WSAStartup (ret : Z)
| WSACleanup
| Enter (m : method).

(** A thrown object: one whose type derives from [std::exception] (with
    its [what()]), or anything else. *)
Inductive exn : Type :=
| std_exception (what : string)
| non_std_exception.

Inductive outcome (A : Type) : Type :=
| Normal (a : A)
| Thrown (e : exn).
Arguments Normal {A} a.
Arguments Thrown {A} e.

(** The state a member function can touch: the unread bytes of standard
    input, the answer the operating system gives to
    [WSAStartup(MAKEWORD(2, 2), &wsaData)], and the data members of the
    client object. *)
Record process (O : Type) : Type := mkProcess {
  stdin : list ascii;
  WSAStartup_result : Z;
  this : O
}.
Arguments mkProcess {O} _ _ _.
Arguments stdin {O} _.
Arguments WSAStartup_result {O} _.
Arguments this {O} _.

Definition M (O A : Type) : Type :=
  process O -> outcome A * list event * process O.

Definition ret {O A} (a : A) : M O A := fun p => (Normal a, [], p).

Definition bind {O A B} (c : M O A) (k : A -> M O B) : M O B :=
  fun p =>
    match c p with
    | (Normal a, out1, p1) =>
        match k a p1 with
        | (r, out2, p2) => (r, out1 ++ out2, p2)
        end
    | (Thrown e, out1, p1) => (Thrown e, out1, p1)
    end.

Declare Scope cpp_scope.
Delimit Scope cpp_scope with cpp.
Notation "x <- c ;; k" := (bind c (fun x => k))
  (at level 61, c at next level, right associativity) : cpp_scope.
Notation "c ;; k" := (bind c (fun _ => k))
  (at level 61, right associativity) : cpp_scope.
Open Scope cpp_scope.

Definition emit {O} (e : event) : M O unit := fun p => (Normal tt, [e], p).

(** [throw e;] *)
Definition throw {O A} (e : exn) : M O A := fun p => (Thrown e, [], p).

(** Lift a fallible pure computation. *)
Definition lift {O A} (r : outcome A) : M O A := fun p => (r, [], p).

(** [std::cout << s << std::endl;] and [std::cerr << s << std::endl;].
    Neither stream has its exception mask set, so neither throws. *)
Definition cout {O} (s : string) : M O unit := emit (Cout s).
Definition cerr {O} (s : string) : M O unit := emit (Cerr s).

(** [std::cin.get();] with the result discarded: takes one byte when there
    is one, none at end of input. *)
Definition cin_get {O} : M O unit :=
  fun p =>
    match stdin p with
    | [] => (Normal tt, [CinGet None], p)
    | c :: rest =>
        (Normal tt, [CinGet (Some c)],
         mkProcess rest (WSAStartup_result p) (this p))
    end.

(** [WSAStartup(MAKEWORD(2, 2), &wsaData)]: its return value. *)
Definition call_WSAStartup {O} : M O Z :=
  fun p => (Normal (WSAStartup_result p), [WSAStartup (WSAStartup_result p)], p).

(** [WSACleanup();] *)
Definition call_WSACleanup {O} : M O unit := emit WSACleanup.

(** A local object's scope: [body] runs, then the destructor, also while
    an exception from [body] unwinds the stack (it is caught in [main]). *)
Definition with_destructor {O A} (body : M O A) (dtor : M O unit) : M O A :=
  fun p =>
    match body p with
    | (r, out1, p1) =>
        match dtor p1 with
        | (Normal _, out2, p2) => (r, out1 ++ out2, p2)
        | (Thrown e, out2, p2) => (Thrown e, out1 ++ out2, p2)
        end
    end.

(** A member function seen through its name: what it returns, if
    anything. *)
Definition returns_void {O} (c : M O unit) : M O (option bool) :=
  c ;; ret None.
Definition returns_bool {O} (c : M O bool) : M O (option bool) :=
  b <- c ;; ret (Some b).

(** The newline byte as a string: the backslash-n of a string literal. *)
Definition LF : string := String "010"%char EmptyString.

(** [#if v]: taken when the constant expression is not zero. *)
Definition pp_if (v : Z) : bool := negb (Z.eqb v 0).

(** [std::string::substr(pos, count)]: throws [std::out_of_range] (which
    derives from [std::exception]) when [pos] is beyond the size; the text
    of its [what()] is the implementation's. *)
Definition out_of_range_what : string := "basic_string::substr".

Definition substr (s : string) (pos count : nat) : outcome string :=
  if Nat.ltb (String.length s) pos
  then Thrown (std_exception out_of_range_what)
  else Normal (substring pos (Nat.min count (String.length s - pos)) s).

(** The skeleton shared by both [main] functions:
<<
    try { Client client; client.Run(); }
    catch (const std::exception& e) {
        std::cerr << "Error: " << e.what() << std::endl;
        return 1;
    }
    return 0;
>>
    An exception that is not a [std::exception] is not caught. *)
Definition try_catch_main {O} (try_block : M O unit) : M O Z :=
  fun p =>
    match try_block p with
    | (Normal _, out, p1) => (Normal 0%Z, out, p1)
    | (Thrown (std_exception what), out, p1) =>
        (Normal 1%Z, out ++ [Cerr ("Error: " ++ what)%string], p1)
    | (Thrown non_std_exception, out, p1) => (Thrown non_std_exception, out, p1)
    end.

(** ** Observations on a list of events *)

Definition stdout_of (e : event) : list string :=
  match e with Cout s => [s] | _ => [] end.

Definition stderr_of (e : event) : list string :=
  match e with Cerr s => [s] | _ => [] end.

(** The statements written to standard output, in order. *)
Definition stdout_writes (t : list event) : list string := flat_map stdout_of t.
Definition stderr_writes (t : list event) : list string := flat_map stderr_of t.

(** The bytes on standard output: each statement ends with [std::endl]. *)
Definition stdout_text (t : list event) : string :=
  fold_right (fun s acc => (s ++ LF ++ acc)%string) "" (stdout_writes t).

(** Split a text into its lines; [cur] is the line being read, reversed. *)
Fixpoint lines_from (cur : list ascii) (s : string) : list string :=
  match s with
  | EmptyString =>
      match cur with
      | [] => []
      | _ => [string_of_list_ascii (rev cur)]
      end
  | String c s' =>
      if Ascii.eqb c "010"%char
      then string_of_list_ascii (rev cur) :: lines_from [] s'
      else lines_from (c :: cur) s'
  end.

(** The lines on standard output. *)
Definition stdout_lines (t : list event) : list string :=
  lines_from [] (stdout_text t).

Definition is_console (e : event) : bool :=
  match e with Cout _ | Cerr _ => true | _ => false end.

(** What appears on the console (both streams), in order. *)
Definition console (t : list event) : list event := filter is_console t.

Definition is_input_or_system (e : event) : bool :=
  match e with CinGet _ | WSAStartup _ | WSACleanup => true | _ => false end.

(** What a run does besides writing to the console: reads from standard
    input and calls into the Windows socket layer. *)
Definition other_effects (t : list event) : list event :=
  filter is_input_or_system t.

Definition calls_of (e : event) : list method :=
  match e with Enter m => [m] | _ => [] end.

(** The member functions entered, in order. *)
Definition calls (t : list event) : list method := flat_map calls_of t.

Definition reads_of (e : event) : list (option ascii) :=
  match e with CinGet c => [c] | _ => [] end.

(** The reads from standard input, in order. *)
Definition stdin_reads (t : list event) : list (option ascii) := flat_map reads_of t.

(** Whether the Windows block of a constructor gets through: there is no
    such block unless [_WIN32] is defined, and otherwise [WSAStartup] must
    answer 0. *)
Definition networking_starts {O} (defined_WIN32 : bool) (p : process O) : bool :=
  negb defined_WIN32 || Z.eqb (WSAStartup_result p) 0.

(** The members named by [ms], invoked one after the other on the same
    object; a name the class does not have is skipped. *)
Fixpoint invoke_all {O} (call : method -> option (M O (option bool)))
    (ms : list method) : M O unit :=
  match ms with
  | [] => ret tt
  | m :: ms' =>
      match call m with
      | Some c => c ;; invoke_all call ms'
      | None => invoke_all call ms'
      end
  end.

(** The same process with other values in the object's data members. *)
Definition with_members {O} (p : process O) (obj : O) : process O :=
  mkProcess (stdin p) (WSAStartup_result p) obj.

Definition result {O A} (x : outcome A * list event * process O) : outcome A :=
  fst (fst x).
Definition events {O A} (x : outcome A * list event * process O) : list event :=
  snd (fst x).
Definition final {O A} (x : outcome A * list event * process O) : process O :=
  snd x.

(** ** [Stub]: the program of simple_webrtc_client_stub.cpp *)

Module Stub.

(** [class SimpleWebRTCClient]: its private section holds comments only,
    so an object has no data members. *)
Inductive SimpleWebRTCClient : Type := SimpleWebRTCClient_object.

Section Build.

(** Whether the build defines [_WIN32]. *)
Variable defined_WIN32 : bool.

Definition constructor : M SimpleWebRTCClient unit :=
  emit (Enter m_constructor) ;;
  cout "=== WebRTC Native Client - Stub Version ===" ;;
  cout "This demonstrates the native WebRTC implementation" ;;
  cout ("============================================" ++ LF)%string ;;
  if defined_WIN32 then
    (r <- call_WSAStartup ;;
     if negb (Z.eqb r 0)
     then cerr "Failed to initialize Windows networking"
     else (cout "Windows networking initialized" ;;
           cout "WebRTC Client initialized (stub version)!"))
  else cout "WebRTC Client initialized (stub version)!".

Definition destructor : M SimpleWebRTCClient unit :=
  emit (Enter m_destructor) ;;
  if defined_WIN32 then call_WSACleanup else ret tt.

Definition CreatePeerConnection : M SimpleWebRTCClient bool :=
  emit (Enter m_CreatePeerConnection) ;;
  cout "Creating PeerConnection..." ;;
  cout "PeerConnection created successfully (stub)!" ;;
  ret true.

Definition AddVideoStream : M SimpleWebRTCClient bool :=
  emit (Enter m_AddVideoStream) ;;
  cout "Adding video stream..." ;;
  cout "Video stream added successfully (stub)!" ;;
  ret true.

Definition AddAudioStream : M SimpleWebRTCClient bool :=
  emit (Enter m_AddAudioStream) ;;
  cout "Adding audio stream..." ;;
  cout "Audio stream added successfully (stub)!" ;;
  ret true.

Definition CreateOffer : M SimpleWebRTCClient unit :=
  emit (Enter m_CreateOffer) ;;
  cout "Creating offer..." ;;
  cout "Offer created successfully (stub)!".

(** The operands of [<<] are evaluated before the line is complete;
    [substr] is the only one that can throw. *)
Definition HandleSignaling (message : string) : M SimpleWebRTCClient unit :=
  emit (Enter m_HandleSignaling) ;;
  head <- lift (substr message 0 50) ;;
  cout ("Handling signaling message: " ++ head ++ "...")%string.

Definition StartVideoCapture : M SimpleWebRTCClient unit :=
  emit (Enter m_StartVideoCapture) ;;
  cout "Starting video capture..." ;;
  cout "Video capture started (stub)!".

Definition RenderVideo : M SimpleWebRTCClient unit :=
  emit (Enter m_RenderVideo) ;;
  cout "Rendering video..." ;;
  cout "Video rendering active (stub)!".

(** The closing banner (lines 186-194). *)
Definition closing_banner : M SimpleWebRTCClient unit :=
  cout (LF ++ "=== Native WebRTC Features Demonstrated ===")%string ;;
  cout "✅ PeerConnection creation" ;;
  cout "✅ Video stream handling" ;;
  cout "✅ Audio stream handling" ;;
  cout "✅ Video capture" ;;
  cout "✅ SDP offer/answer" ;;
  cout "✅ Video rendering" ;;
  cout "✅ Signaling protocol" ;;
  cout ("==========================================" ++ LF)%string.

Definition Run : M SimpleWebRTCClient unit :=
  emit (Enter m_Run) ;;
  cout (LF ++ "=== WebRTC Native Client Running ===")%string ;;
  cout "This demonstrates the structure of a native WebRTC application" ;;
  cout ("=====================================" ++ LF)%string ;;
  CreatePeerConnection ;;
  AddVideoStream ;;
  AddAudioStream ;;
  StartVideoCapture ;;
  CreateOffer ;;
  RenderVideo ;;
  closing_banner ;;
  cout "Press Enter to exit..." ;;
  cin_get.

(** The member functions of the class by name, for statements about
    "every method": a [bool] result is kept, a [void] one is [None];
    [message] is the argument of [HandleSignaling].  The class has no
    [InitializeWebRTC]. *)
Definition call (m : method) (message : string)
  : option (M SimpleWebRTCClient (option bool)) :=
  match m with
  | m_constructor => Some (returns_void constructor)
  | m_destructor => Some (returns_void destructor)
  | m_InitializeWebRTC => None
  | m_CreatePeerConnection => Some (returns_bool CreatePeerConnection)
  | m_AddVideoStream => Some (returns_bool AddVideoStream)
  | m_AddAudioStream => Some (returns_bool AddAudioStream)
  | m_CreateOffer => Some (returns_void CreateOffer)
  | m_HandleSignaling => Some (returns_void (HandleSignaling message))
  | m_StartVideoCapture => Some (returns_void StartVideoCapture)
  | m_RenderVideo => Some (returns_void RenderVideo)
  | m_Run => Some (returns_void Run)
  end.

(** [SimpleWebRTCClient client; client.Run();] inside the [try] block:
    the destructor runs when the block is left, unless the constructor
    itself threw. *)
Definition try_block : M SimpleWebRTCClient unit :=
  constructor ;;
  with_destructor Run destructor.

Definition main : M SimpleWebRTCClient Z :=
  cout "🎥 WebRTC Native Video Streaming Client" ;;
  cout "Using WebRTC C++ Source Code (Stub Version)" ;;
  cout ("==========================================" ++ LF)%string ;;
  try_catch_main try_block.

End Build.

(** The process as [main] finds it: the given input, the given answer of
    the operating system to [WSAStartup]. *)
Definition start (input : list ascii) (wsa : Z) : process SimpleWebRTCClient :=
  mkProcess input wsa SimpleWebRTCClient_object.

End Stub.

(** ** [Real]: the program of build/real_webrtc_client.cpp *)

Module Real.

(** Lines 22-27: the macro is defined in both arms of [#ifdef _WIN32]. *)
Definition WEBRTC_HEADERS_AVAILABLE (defined_WIN32 : bool) : Z :=
  if defined_WIN32 then 0%Z else 0%Z.

(** A [scoped_refptr]: [None] is the null pointer. *)
Definition handle : Type := option nat.

(** The data members declared under [#if WEBRTC_HEADERS_AVAILABLE]
    (lines 485-487).  The model keeps them in every build, so that
    "the compiled member functions neither read nor write them" is a
    statement and not a convention. *)
Record RealWebRTCClient : Type := mkRealWebRTCClient {
  peer_connection_factory_ : handle;
  peer_connection_ : handle
}.

(** The text between [#if WEBRTC_HEADERS_AVAILABLE] and [#else] in the six
    member functions that call the WebRTC library.  The library is not
    part of the repository: what these statements do (which handles they
    store, what they print, whether they throw) is left open.  The
    callbacks (lines 460-482) and [CreateVideoCapturer] (lines 489-518)
    stand under the same guard and are reached from this text only. *)
Record guarded_code : Type := mkGuarded {
  g_InitializeWebRTC : M RealWebRTCClient bool;
  g_CreatePeerConnection : M RealWebRTCClient bool;
  g_AddVideoStream : M RealWebRTCClient bool;
  g_AddAudioStream : M RealWebRTCClient bool;
  g_CreateOffer : M RealWebRTCClient unit;
  g_StartVideoCapture : M RealWebRTCClient unit
}.

Section Build.

(** Whether the build defines [_WIN32]. *)
Variable defined_WIN32 : bool.
Variable lib : guarded_code.

(** [#if WEBRTC_HEADERS_AVAILABLE ... #else ... #endif] *)
Definition if_headers {A} (guarded fallback : M RealWebRTCClient A)
  : M RealWebRTCClient A :=
  if pp_if (WEBRTC_HEADERS_AVAILABLE defined_WIN32) then guarded else fallback.

(** The statements of the constructor after the Windows block. *)
Definition constructor_tail : M RealWebRTCClient unit :=
  if_headers
    (cout "Running with REAL WebRTC libraries" ;;
     cout "Using actual WebRTC C++ source code")
    (cout "Running in DEMO mode (WebRTC headers not available)" ;;
     cout "Showing real WebRTC source code patterns") ;;
  cout "WebRTC Client initialized!".

Definition constructor : M RealWebRTCClient unit :=
  emit (Enter m_constructor) ;;
  cout "=== Real WebRTC Native Client ===" ;;
  if defined_WIN32 then
    (r <- call_WSAStartup ;;
     if negb (Z.eqb r 0)
     then cerr "Failed to initialize Windows networking"
     else (cout "Windows networking initialized" ;;
           constructor_tail))
  else constructor_tail.

Definition destructor : M RealWebRTCClient unit :=
  emit (Enter m_destructor) ;;
  if defined_WIN32 then call_WSACleanup else ret tt.

Definition InitializeWebRTC : M RealWebRTCClient bool :=
  emit (Enter m_InitializeWebRTC) ;;
  cout "Initializing WebRTC..." ;;
  if_headers
    (g_InitializeWebRTC lib)
    (cout "DEMO: WebRTC initialization simulated" ;;
     cout "  - CreateDefaultTaskQueueFactory()" ;;
     cout "  - CreateEnvironment()" ;;
     cout "  - CreateModularPeerConnectionFactory()" ;;
     cout "  - CreateBuiltinAudioEncoderFactory()" ;;
     cout "  - CreateBuiltinVideoEncoderFactory()" ;;
     ret true).

Definition CreatePeerConnection : M RealWebRTCClient bool :=
  emit (Enter m_CreatePeerConnection) ;;
  cout "Creating PeerConnection..." ;;
  if_headers
    (g_CreatePeerConnection lib)
    (cout "DEMO: PeerConnection creation simulated" ;;
     cout "  - PeerConnectionInterface::RTCConfiguration config" ;;
     cout "  - config.sdp_semantics = SdpSemantics::kUnifiedPlan" ;;
     cout "  - peer_connection_factory_->CreatePeerConnection()" ;;
     ret true).

Definition AddVideoStream : M RealWebRTCClient bool :=
  emit (Enter m_AddVideoStream) ;;
  cout "Adding video stream..." ;;
  if_headers
    (g_AddVideoStream lib)
    (cout "DEMO: Video stream addition simulated" ;;
     cout "  - VideoCaptureFactory::CreateDeviceInfo()" ;;
     cout "  - CreateVideoCapturer()" ;;
     cout "  - peer_connection_factory_->CreateVideoSource()" ;;
     cout "  - peer_connection_factory_->CreateVideoTrack()" ;;
     cout "  - peer_connection_->AddTrack()" ;;
     ret true).

Definition AddAudioStream : M RealWebRTCClient bool :=
  emit (Enter m_AddAudioStream) ;;
  cout "Adding audio stream..." ;;
  if_headers
    (g_AddAudioStream lib)
    (cout "DEMO: Audio stream addition simulated" ;;
     cout "  - peer_connection_factory_->CreateAudioSource()" ;;
     cout "  - peer_connection_factory_->CreateAudioTrack()" ;;
     cout "  - peer_connection_->AddTrack()" ;;
     ret true).

Definition CreateOffer : M RealWebRTCClient unit :=
  emit (Enter m_CreateOffer) ;;
  cout "Creating offer..." ;;
  if_headers
    (g_CreateOffer lib)
    (cout "DEMO: SDP offer creation simulated" ;;
     cout "  - peer_connection_->CreateOffer()" ;;
     cout "  - OnSuccess() callback with SessionDescriptionInterface" ;;
     cout "  - peer_connection_->SetLocalDescription()").

Definition StartVideoCapture : M RealWebRTCClient unit :=
  emit (Enter m_StartVideoCapture) ;;
  cout "Starting video capture..." ;;
  if_headers
    (g_StartVideoCapture lib)
    (cout "DEMO: Video capture initialization simulated" ;;
     cout "  - VideoCaptureFactory::CreateDeviceInfo()" ;;
     cout "  - device_info->NumberOfDevices()" ;;
     cout "  - device_info->GetDeviceName()" ;;
     cout "  - CreateDeviceCapturer() or CreateSquareFrameGenerator()").

Definition RenderVideo : M RealWebRTCClient unit :=
  emit (Enter m_RenderVideo) ;;
  cout "Rendering video..." ;;
  cout "Video rendering initialized!".

(** The closing banner (lines 439-454). *)
Definition closing_banner : M RealWebRTCClient unit :=
  cout (LF ++ "=== Real WebRTC Features Demonstrated ===")%string ;;
  if_headers
    (cout "âœ… Using REAL WebRTC C++ libraries" ;;
     cout "âœ… PeerConnection with actual WebRTC objects" ;;
     cout "âœ… Real video/audio capture and processing" ;;
     cout "âœ… Actual SDP negotiation and ICE handling" ;;
     cout "âœ… Real-time media streaming capabilities")
    (cout "ðŸŽ¯ Real WebRTC source code patterns demonstrated" ;;
     cout "ðŸ“‹ Shows actual WebRTC API usage from conductor.cc" ;;
     cout "ðŸ”§ Demonstrates proper WebRTC initialization flow" ;;
     cout "ðŸ“¹ Shows video/audio capture and track creation" ;;
     cout "ðŸŒ Demonstrates SDP offer/answer and ICE handling" ;;
     cout "ðŸ’¡ To use real WebRTC, build with WebRTC libraries") ;;
  cout ("====================================" ++ LF)%string.

Definition Run : M RealWebRTCClient unit :=
  emit (Enter m_Run) ;;
  cout (LF ++ "=== Real WebRTC Native Client Running ===")%string ;;
  cout "This uses actual WebRTC C++ source code patterns" ;;
  cout ("========================================" ++ LF)%string ;;
  ok <- InitializeWebRTC ;;
  if negb ok then cerr "Failed to initialize WebRTC"
  else
    (ok' <- CreatePeerConnection ;;
     if negb ok' then cerr "Failed to create peer connection"
     else
       (AddVideoStream ;;
        AddAudioStream ;;
        StartVideoCapture ;;
        CreateOffer ;;
        RenderVideo ;;
        closing_banner ;;
        cout "Press Enter to exit..." ;;
        cin_get)).

(** The member functions of the class by name, as for the stub client;
    this class has no [HandleSignaling]. *)
Definition call (m : method)
  : option (M RealWebRTCClient (option bool)) :=
  match m with
  | m_constructor => Some (returns_void constructor)
  | m_destructor => Some (returns_void destructor)
  | m_InitializeWebRTC => Some (returns_bool InitializeWebRTC)
  | m_CreatePeerConnection => Some (returns_bool CreatePeerConnection)
  | m_AddVideoStream => Some (returns_bool AddVideoStream)
  | m_AddAudioStream => Some (returns_bool AddAudioStream)
  | m_CreateOffer => Some (returns_void CreateOffer)
  | m_HandleSignaling => None
  | m_StartVideoCapture => Some (returns_void StartVideoCapture)
  | m_RenderVideo => Some (returns_void RenderVideo)
  | m_Run => Some (returns_void Run)
  end.

Definition try_block : M RealWebRTCClient unit :=
  constructor ;;
  with_destructor Run destructor.

Definition main : M RealWebRTCClient Z :=
  cout "ðŸŽ¥ Real WebRTC Native Video Streaming Client" ;;
  cout "Using WebRTC C++ Source Code Patterns" ;;
  cout ("==========================================" ++ LF)%string ;;
  try_catch_main try_block.

End Build.

(** Guarded code that aborts as soon as it is reached: a build in which
    the library is absent altogether. *)
Definition absent : guarded_code :=
  mkGuarded (throw non_std_exception) (throw non_std_exception)
            (throw non_std_exception) (throw non_std_exception)
            (throw non_std_exception) (throw non_std_exception).

(** The process as [main] finds it; the handles start out null. *)
Definition start (input : list ascii) (wsa : Z) : process RealWebRTCClient :=
  mkProcess input wsa (mkRealWebRTCClient None None).

End Real.

(** * The text under [#if WEBRTC_HEADERS_AVAILABLE]

    The rest of build/real_webrtc_client.cpp: what the six library-facing
    member functions say when the macro is not zero. *)

(** ** More of the monad *)

(** Read and write the data members of the object. *)
Definition get_this {O} : M O O := fun p => (Normal (this p), [], p).
Definition set_this {O} (obj : O) : M O unit :=
  fun p => (Normal tt, [], with_members p obj).

(** [try { body } catch (const std::exception& e) { handler }], the
    handler seeing [e.what()]; any other exception passes through. *)
Definition try_catch_std {O A} (body : M O A) (handler : string -> M O A)
  : M O A :=
  fun p =>
    match body p with
    | (Thrown (std_exception what), out1, p1) =>
        match handler what p1 with
        | (r, out2, p2) => (r, out1 ++ out2, p2)
        end
    | other => other
    end.




(** The two "not initialized" reports of the null-handle checks. *)
Definition is_guard_message (e : event) : bool :=
  match e with
  | Cerr s =>
      String.eqb s "Peer connection factory not initialized"
      || String.eqb s "Peer connection not initialized"
  | _ => false
  end.

(** Whether a null-handle check has fired in the course of [t]. *)
Definition guard_fired (t : list event) : bool := existsb is_guard_message t.

(** A [uint32_t] inserted into a stream: its decimal digits. *)
Definition decimal (n : nat) : string := NilEmpty.string_of_uint (Nat.to_uint n).

(** ** The WebRTC library, as the guarded text calls it *)

Module Library.

(** What [AddTrack] returns: [ok()], or an error with its [message()]. *)
Inductive add_track_result : Type :=
| AddTrack_ok
| AddTrack_error (message : string).

(** What [GetDeviceName] returns and leaves in its two buffers (as
    C strings). *)
Record device_name_answer : Type := mkDeviceName {
  code : Z;
  device_name : string;
  device_id : string
}.

(** One answer per call of the guarded text, as a function of the objects
    the call is made on or given (by identity), and of the member function
    it is made in where two of them make the same call.  An answer is a
    value (a handle may be null) or an exception.  The call of
    [CreateModularPeerConnectionFactory] stands for the whole expression,
    the four [CreateBuiltin...Factory()] arguments included, and that of
    [CreatePeerConnection] for the configuration as well.  What the
    library does on its own threads, the callbacks of lines 460-482
    included, is outside. *)
Record library : Type := mkLibrary {
  CreateDefaultTaskQueueFactory : outcome Real.handle;
  CreateEnvironment : nat -> outcome Real.handle;
  CreateModularPeerConnectionFactory : nat -> outcome Real.handle;
  CreatePeerConnection : nat -> outcome Real.handle;
  CreateDeviceInfo : method -> outcome Real.handle;
  NumberOfDevices : method -> nat -> outcome nat;
  GetDeviceName : method -> nat -> nat -> outcome device_name_answer;
  CreateSquareFrameGenerator : outcome Real.handle;
  CreateDeviceCapturer : string -> outcome Real.handle;
  CreateVideoSource : nat -> nat -> outcome Real.handle;
  CreateVideoTrack : nat -> nat -> outcome Real.handle;
  CreateAudioSource : nat -> outcome Real.handle;
  CreateAudioTrack : nat -> nat -> outcome Real.handle;
  AddTrack : method -> nat -> nat -> outcome add_track_result;
  CreateOffer : nat -> outcome unit
}.

(** A library in which every call succeeds; it knows two cameras, the
    second of which does not give its name. *)
Definition working : library :=
  mkLibrary
    (Normal (Some 1)) (fun _ => Normal (Some 2)) (fun _ => Normal (Some 3))
    (fun _ => Normal (Some 4))
    (fun _ => Normal (Some 5)) (fun _ _ => Normal 2)
    (fun _ _ i =>
       Normal (if Nat.eqb i 0 then mkDeviceName 0 "Front camera" "cam0"
               else mkDeviceName (-1) "" ""))
    (Normal (Some 6)) (fun _ => Normal (Some 7))
    (fun _ _ => Normal (Some 8)) (fun _ _ => Normal (Some 9))
    (fun _ => Normal (Some 10)) (fun _ _ => Normal (Some 11))
    (fun _ _ _ => Normal AddTrack_ok)
    (fun _ => Normal tt).

(** A library with another answer to one of its calls. *)
Definition with_CreateDefaultTaskQueueFactory
    (a : outcome Real.handle) (L : library) : library :=
  mkLibrary a (CreateEnvironment L) (CreateModularPeerConnectionFactory L)
    (CreatePeerConnection L) (CreateDeviceInfo L) (NumberOfDevices L)
    (GetDeviceName L) (CreateSquareFrameGenerator L) (CreateDeviceCapturer L)
    (CreateVideoSource L) (CreateVideoTrack L) (CreateAudioSource L)
    (CreateAudioTrack L) (AddTrack L) (CreateOffer L).

Definition with_CreateDeviceInfo
    (a : method -> outcome Real.handle) (L : library) : library :=
  mkLibrary (CreateDefaultTaskQueueFactory L) (CreateEnvironment L)
    (CreateModularPeerConnectionFactory L) (CreatePeerConnection L)
    a (NumberOfDevices L)
    (GetDeviceName L) (CreateSquareFrameGenerator L) (CreateDeviceCapturer L)
    (CreateVideoSource L) (CreateVideoTrack L) (CreateAudioSource L)
    (CreateAudioTrack L) (AddTrack L) (CreateOffer L).

Definition with_CreatePeerConnection
    (a : nat -> outcome Real.handle) (L : library) : library :=
  mkLibrary (CreateDefaultTaskQueueFactory L) (CreateEnvironment L)
    (CreateModularPeerConnectionFactory L)
    a (CreateDeviceInfo L) (NumberOfDevices L)
    (GetDeviceName L) (CreateSquareFrameGenerator L) (CreateDeviceCapturer L)
    (CreateVideoSource L) (CreateVideoTrack L) (CreateAudioSource L)
    (CreateAudioTrack L) (AddTrack L) (CreateOffer L).

End Library.

(** ** [Headers]: build/real_webrtc_client.cpp with the macro not zero *)

Module Headers.

Import Real.

Section Build.

(** Whether the build defines [_WIN32], and the library it links. *)
Variable defined_WIN32 : bool.
Variable L : Library.library.

(** [peer_connection_factory_ = f;] and [peer_connection_ = c;] *)
Definition set_peer_connection_factory_ (f : handle) : M RealWebRTCClient unit :=
  o <- get_this ;;
  set_this (mkRealWebRTCClient f (peer_connection_ o)).

Definition set_peer_connection_ (c : handle) : M RealWebRTCClient unit :=
  o <- get_this ;;
  set_this (mkRealWebRTCClient (peer_connection_factory_ o) c).

(** Lines 171-208. *)
Definition guarded_InitializeWebRTC : M RealWebRTCClient bool :=
  try_catch_std
    (task_queue_factory <- lift (Library.CreateDefaultTaskQueueFactory L) ;;
     match task_queue_factory with
     | None => cerr "Failed to create task queue factory" ;; ret false
     | Some q =>
         environment <- lift (Library.CreateEnvironment L q) ;;
         match environment with
         | None => cerr "Failed to create environment" ;; ret false
         | Some e =>
             f <- lift (Library.CreateModularPeerConnectionFactory L e) ;;
             set_peer_connection_factory_ f ;;
             match f with
             | None => cerr "Failed to create peer connection factory" ;; ret false
             | Some _ => cout "WebRTC initialized successfully!" ;; ret true
             end
         end
     end)
    (fun what =>
       cerr ("WebRTC initialization failed: " ++ what)%string ;; ret false).

(** Lines 224-243. *)
Definition guarded_CreatePeerConnection : M RealWebRTCClient bool :=
  o <- get_this ;;
  match peer_connection_factory_ o with
  | None => cerr "Peer connection factory not initialized" ;; ret false
  | Some f =>
      c <- lift (Library.CreatePeerConnection L f) ;;
      set_peer_connection_ c ;;
      match c with
      | None => cerr "Failed to create peer connection" ;; ret false
      | Some _ => cout "PeerConnection created successfully!" ;; ret true
      end
  end.

(** The private member function [CreateVideoCapturer] (lines 489-518). *)
Definition CreateVideoCapturer : M RealWebRTCClient handle :=
  device_info <- lift (Library.CreateDeviceInfo L m_AddVideoStream) ;;
  match device_info with
  | None => ret None
  | Some d =>
      device_count <- lift (Library.NumberOfDevices L m_AddVideoStream d) ;;
      if Nat.eqb device_count 0
      then lift (Library.CreateSquareFrameGenerator L)
      else
        (g <- lift (Library.GetDeviceName L m_AddVideoStream d 0) ;;
         if Z.eqb (Library.code g) 0
         then lift (Library.CreateDeviceCapturer L (Library.device_id g))
         else ret None)
  end.

(** Lines 257-295. *)
Definition guarded_AddVideoStream : M RealWebRTCClient bool :=
  o <- get_this ;;
  match peer_connection_factory_ o, peer_connection_ o with
  | Some f, Some c =>
      video_capturer <- CreateVideoCapturer ;;
      match video_capturer with
      | None => cerr "Failed to create video capturer" ;; ret false
      | Some vc =>
          video_source <- lift (Library.CreateVideoSource L f vc) ;;
          match video_source with
          | None => cerr "Failed to create video source" ;; ret false
          | Some vs =>
              video_track <- lift (Library.CreateVideoTrack L f vs) ;;
              match video_track with
              | None => cerr "Failed to create video track" ;; ret false
              | Some vt =>
                  r <- lift (Library.AddTrack L m_AddVideoStream c vt) ;;
                  match r with
                  | Library.AddTrack_error message =>
                      cerr ("Failed to add video track: " ++ message)%string ;;
                      ret false
                  | Library.AddTrack_ok =>
                      cout "Video stream added successfully!" ;; ret true
                  end
              end
          end
      end
  | _, _ => cerr "Peer connection not initialized" ;; ret false
  end.

(** Lines 311-342. *)
Definition guarded_AddAudioStream : M RealWebRTCClient bool :=
  o <- get_this ;;
  match peer_connection_factory_ o, peer_connection_ o with
  | Some f, Some c =>
      audio_source <- lift (Library.CreateAudioSource L f) ;;
      match audio_source with
      | None => cerr "Failed to create audio source" ;; ret false
      | Some s =>
          audio_track <- lift (Library.CreateAudioTrack L f s) ;;
          match audio_track with
          | None => cerr "Failed to create audio track" ;; ret false
          | Some t =>
              r <- lift (Library.AddTrack L m_AddAudioStream c t) ;;
              match r with
              | Library.AddTrack_error message =>
                  cerr ("Failed to add audio track: " ++ message)%string ;;
                  ret false
              | Library.AddTrack_ok =>
                  cout "Audio stream added successfully!" ;; ret true
              end
          end
      end
  | _, _ => cerr "Peer connection not initialized" ;; ret false
  end.

(** Lines 356-361. *)
Definition guarded_CreateOffer : M RealWebRTCClient unit :=
  o <- get_this ;;
  match peer_connection_ o with
  | None => cerr "Peer connection not initialized"
  | Some c => lift (Library.CreateOffer L c)
  end.

(** The loop of lines 385-392, from index [i] with [remaining] devices to
    go. *)
Fixpoint list_devices (d i remaining : nat) : M RealWebRTCClient unit :=
  match remaining with
  | O => ret tt
  | S k =>
      g <- lift (Library.GetDeviceName L m_StartVideoCapture d i) ;;
      (if Z.eqb (Library.code g) 0
       then cout ("Device " ++ decimal i ++ ": " ++ Library.device_name g)%string
       else ret tt) ;;
      list_devices d (S i) k
  end.

(** Lines 374-394. *)
Definition guarded_StartVideoCapture : M RealWebRTCClient unit :=
  device_info <- lift (Library.CreateDeviceInfo L m_StartVideoCapture) ;;
  match device_info with
  | None => cerr "Failed to create video device info"
  | Some d =>
      device_count <- lift (Library.NumberOfDevices L m_StartVideoCapture d) ;;
      cout ("Found " ++ decimal device_count ++ " video devices")%string ;;
      list_devices d 0 device_count ;;
      cout "Video capture initialized!"
  end.

(** The guarded text of the six member functions, in the record through
    which [Real] takes it. *)
Definition guarded : guarded_code :=
  mkGuarded guarded_InitializeWebRTC guarded_CreatePeerConnection
            guarded_AddVideoStream guarded_AddAudioStream
            guarded_CreateOffer guarded_StartVideoCapture.

(** The member functions as they are compiled when the macro is not
    zero. *)
Definition InitializeWebRTC : M RealWebRTCClient bool :=
  emit (Enter m_InitializeWebRTC) ;;
  cout "Initializing WebRTC..." ;;
  guarded_InitializeWebRTC.

Definition CreatePeerConnection : M RealWebRTCClient bool :=
  emit (Enter m_CreatePeerConnection) ;;
  cout "Creating PeerConnection..." ;;
  guarded_CreatePeerConnection.

Definition AddVideoStream : M RealWebRTCClient bool :=
  emit (Enter m_AddVideoStream) ;;
  cout "Adding video stream..." ;;
  guarded_AddVideoStream.

Definition AddAudioStream : M RealWebRTCClient bool :=
  emit (Enter m_AddAudioStream) ;;
  cout "Adding audio stream..." ;;
  guarded_AddAudioStream.

Definition CreateOffer : M RealWebRTCClient unit :=
  emit (Enter m_CreateOffer) ;;
  cout "Creating offer..." ;;
  guarded_CreateOffer.

Definition StartVideoCapture : M RealWebRTCClient unit :=
  emit (Enter m_StartVideoCapture) ;;
  cout "Starting video capture..." ;;
  guarded_StartVideoCapture.

(** The two handles are default-constructed (null) before the body of
    the constructor runs. *)
Definition constructor_tail : M RealWebRTCClient unit :=
  cout "Running with REAL WebRTC libraries" ;;
  cout "Using actual WebRTC C++ source code" ;;
  cout "WebRTC Client initialized!".

Definition constructor : M RealWebRTCClient unit :=
  emit (Enter m_constructor) ;;
  set_this (mkRealWebRTCClient None None) ;;
  cout "=== Real WebRTC Native Client ===" ;;
  if defined_WIN32 then
    (r <- call_WSAStartup ;;
     if negb (Z.eqb r 0)
     then cerr "Failed to initialize Windows networking"
     else (cout "Windows networking initialized" ;;
           constructor_tail))
  else constructor_tail.

Definition closing_banner : M RealWebRTCClient unit :=
  cout (LF ++ "=== Real WebRTC Features Demonstrated ===")%string ;;
  cout "âœ… Using REAL WebRTC C++ libraries" ;;
  cout "âœ… PeerConnection with actual WebRTC objects" ;;
  cout "âœ… Real video/audio capture and processing" ;;
  cout "âœ… Actual SDP negotiation and ICE handling" ;;
  cout "âœ… Real-time media streaming capabilities" ;;
  cout ("====================================" ++ LF)%string.

Definition Run : M RealWebRTCClient unit :=
  emit (Enter m_Run) ;;
  cout (LF ++ "=== Real WebRTC Native Client Running ===")%string ;;
  cout "This uses actual WebRTC C++ source code patterns" ;;
  cout ("========================================" ++ LF)%string ;;
  ok <- InitializeWebRTC ;;
  if negb ok then cerr "Failed to initialize WebRTC"
  else
    (ok' <- CreatePeerConnection ;;
     if negb ok' then cerr "Failed to create peer connection"
     else
       (AddVideoStream ;;
        AddAudioStream ;;
        StartVideoCapture ;;
        CreateOffer ;;
        RenderVideo ;;
        closing_banner ;;
        cout "Press Enter to exit..." ;;
        cin_get)).

Definition try_block : M RealWebRTCClient unit :=
  constructor ;;
  with_destructor Run (destructor defined_WIN32).

Definition main : M RealWebRTCClient Z :=
  cout "ðŸŽ¥ Real WebRTC Native Video Streaming Client" ;;
  cout "Using WebRTC C++ Source Code Patterns" ;;
  cout ("==========================================" ++ LF)%string ;;
  try_catch_main try_block.

End Build.

End Headers.

(** * Properties *)

(** ** The preprocessor flag *)

Lemma headers_never_available (w : bool) :
  Real.WEBRTC_HEADERS_AVAILABLE w = 0%Z.
Proof. destruct w; reflexivity. Qed.

Lemma if_headers_fallback (w : bool) {A} (guarded fallback : M Real.RealWebRTCClient A) :
  Real.if_headers w guarded fallback = fallback.
Proof.
  unfold Real.if_headers. rewrite headers_never_available. reflexivity.
Qed.

(** ** Case analysis on a run

    A run is settled by the build ([_WIN32] or not), by whether standard
    input is at its end, and by the sign of what [WSAStartup] answers. *)

Ltac split_process p :=
  let input := fresh "input" in
  let wsa := fresh "wsa" in
  let obj := fresh "obj" in
  destruct p as [input wsa obj];
  destruct input; destruct wsa.

Ltac by_cases :=
  repeat match goal with
         | w : bool |- _ => destruct w
         | p : process _ |- _ => split_process p
         end;
  vm_compute; try reflexivity.

Ltac not_in_list :=
  let H := fresh "H" in
  vm_compute; intros H;
  repeat (destruct H as [H|H]; [discriminate H|]); exact H.

(** ** Pure lemmas on events and strings *)

Lemma Cerr_in_stderr_writes (s : string) (t : list event) :
  In (Cerr s) t -> In s (stderr_writes t).
Proof.
  intros H. unfold stderr_writes. apply in_flat_map.
  exists (Cerr s). split; [exact H | left; reflexivity].
Qed.


Lemma substring_firstn (n : nat) (s : string) :
  substring 0 n s = string_of_list_ascii (firstn n (list_ascii_of_string s)).
Proof.
  revert s. induction n as [|n IH]; intros s.
  - destruct s; reflexivity.
  - destruct s as [|c s]; simpl; [reflexivity|]. now rewrite IH.
Qed.

Lemma substr_from_start (s : string) (count : nat) :
  substr s 0 count =
  Normal (string_of_list_ascii
            (firstn (Nat.min count (String.length s)) (list_ascii_of_string s))).
Proof.
  unfold substr. simpl Nat.ltb. cbv iota.
  rewrite Nat.sub_0_r. now rewrite substring_firstn.
Qed.

(** ** Standard output of a whole run *)

(** The lines a run of the stub program writes depend on the process only
    through [networking_starts]: they are those of the run with no input
    in which [WSAStartup] answers 0 or 1 accordingly. *)
Lemma Stub_main_lines (w : bool) (p : process Stub.SimpleWebRTCClient) :
  stdout_lines (events (Stub.main w p)) =
  stdout_lines
    (events (Stub.main w (Stub.start [] (if networking_starts w p then 0 else 1)))).
Proof. by_cases. Qed.

Lemma Real_main_lines (w : bool) (lib : Real.guarded_code)
    (p : process Real.RealWebRTCClient) :
  stdout_lines (events (Real.main w lib p)) =
  stdout_lines
    (events (Real.main w lib
               (Real.start [] (if networking_starts w p then 0 else 1)))).
Proof. by_cases. Qed.

Lemma Stub_main_last_line (w : bool) (p : process Stub.SimpleWebRTCClient) :
  last (stdout_lines (events (Stub.main w p))) "" = "Press Enter to exit...".
Proof. by_cases. Qed.

Lemma Real_main_last_line (w : bool) (lib : Real.guarded_code)
    (p : process Real.RealWebRTCClient) :
  last (stdout_lines (events (Real.main w lib p))) "" = "Press Enter to exit...".
Proof. by_cases. Qed.

(** C1, as stated, fails: on a Windows build two runs of the same program,
    both with a byte waiting on standard input, write different lines when
    [WSAStartup] answers 0 in one and WSASYSNOTREADY (10091) in the other.
    The run that fails to start networking lacks the two lines
    "Windows networking initialized" and "WebRTC Client initialized ...". *)
Lemma C1_counterexample :
  stdout_lines (events (Stub.main true (Stub.start ["010"%char] 0))) <>
  stdout_lines (events (Stub.main true (Stub.start ["010"%char] 10091)))
  /\
  stdout_lines (events (Real.main true Real.absent (Real.start ["010"%char] 0))) <>
  stdout_lines (events (Real.main true Real.absent (Real.start ["010"%char] 10091))).
Proof.
  split; intros H; apply (f_equal (@List.length string)) in H;
    vm_compute in H; discriminate H.
Qed.

(** C1, amended: for each program and build, two runs in which the
    Windows networking start-up fares alike (both succeed or both fail;
    a build without [_WIN32] has no such step) write the same sequence of
    lines to standard output, whatever is on standard input; and the last
    line written is the prompt "Press Enter to exit...". *)
Theorem C1_stdout_fixed_given_networking
    (w : bool) (lib : Real.guarded_code)
    (p1 p2 : process Stub.SimpleWebRTCClient)
    (q1 q2 : process Real.RealWebRTCClient) :
  networking_starts w p1 = networking_starts w p2 ->
  networking_starts w q1 = networking_starts w q2 ->
  stdout_lines (events (Stub.main w p1)) = stdout_lines (events (Stub.main w p2))
  /\ stdout_lines (events (Real.main w lib q1)) =
     stdout_lines (events (Real.main w lib q2))
  /\ last (stdout_lines (events (Stub.main w p1))) "" = "Press Enter to exit..."
  /\ last (stdout_lines (events (Real.main w lib q1))) "" = "Press Enter to exit...".
Proof.
  intros Hp Hq. repeat split.
  - rewrite (Stub_main_lines w p1), (Stub_main_lines w p2), Hp. reflexivity.
  - rewrite (Real_main_lines w lib q1), (Real_main_lines w lib q2), Hq. reflexivity.
  - apply Stub_main_last_line.
  - apply Real_main_last_line.
Qed.

(** Two runs on a Windows build with different inputs, and two in which
    networking fails with different error codes. *)
Lemma C1_stdout_fixed_given_networking_witness :
  networking_starts true (Stub.start [] 0) =
    networking_starts true (Stub.start ["a"%char; "b"%char] 0)
  /\ stdout_lines (events (Stub.main true (Stub.start [] 0))) =
     stdout_lines (events (Stub.main true (Stub.start ["a"%char; "b"%char] 0)))
  /\ stdout_lines (events (Real.main true Real.absent (Real.start [] 10091))) =
     stdout_lines (events (Real.main true Real.absent (Real.start ["a"%char] 1))).
Proof.
  split; [reflexivity|].
  pose proof (C1_stdout_fixed_given_networking true Real.absent
                (Stub.start [] 0) (Stub.start ["a"%char; "b"%char] 0)
                (Real.start [] 10091) (Real.start ["a"%char] 1)
                eq_refl eq_refl) as H.
  split; [exact (proj1 H) | exact (proj1 (proj2 H))].
Defined.

(** ** The order of the operations in [Run] *)

(** C2: [Run] enters its operations in one fixed order (six for the stub
    client, seven, starting with [InitializeWebRTC], for the real one),
    all of them before the closing banner; the banner is followed by the
    prompt, and the read from standard input comes last.  This holds for
    every process and every build. *)
Theorem C2_run_invokes_operations_in_order
    (w : bool) (lib : Real.guarded_code)
    (p : process Stub.SimpleWebRTCClient) (q : process Real.RealWebRTCClient) :
  (exists ops,
      events (Stub.Run p) =
        ops ++ events (Stub.closing_banner p)
            ++ [Cout "Press Enter to exit..."; CinGet (hd_error (stdin p))]
      /\ calls ops =
           [m_Run; m_CreatePeerConnection; m_AddVideoStream; m_AddAudioStream;
            m_StartVideoCapture; m_CreateOffer; m_RenderVideo]
      /\ stdin_reads ops = []
      /\ hd_error (events (Stub.closing_banner p)) =
           Some (Cout (LF ++ "=== Native WebRTC Features Demonstrated ==="))
      /\ calls (events (Stub.closing_banner p)) = [])
  /\
  (exists ops,
      events (Real.Run w lib q) =
        ops ++ events (Real.closing_banner w q)
            ++ [Cout "Press Enter to exit..."; CinGet (hd_error (stdin q))]
      /\ calls ops =
           [m_Run; m_InitializeWebRTC; m_CreatePeerConnection; m_AddVideoStream;
            m_AddAudioStream; m_StartVideoCapture; m_CreateOffer; m_RenderVideo]
      /\ stdin_reads ops = []
      /\ hd_error (events (Real.closing_banner w q)) =
           Some (Cout (LF ++ "=== Real WebRTC Features Demonstrated ==="))
      /\ calls (events (Real.closing_banner w q)) = []).
Proof.
  split.
  - exists (firstn 22 (events (Stub.Run p))).
    clear q. by_cases; repeat split; reflexivity.
  - exists (firstn 48 (events (Real.Run w lib q))).
    clear p. by_cases; repeat split; reflexivity.
Qed.

(** ** The guarded branches are dead *)

(** C3: [WEBRTC_HEADERS_AVAILABLE] is 0 whether or not [_WIN32] is
    defined, so every [#if WEBRTC_HEADERS_AVAILABLE] selects its fallback
    arm; whatever the guarded text would do, each member function of
    [RealWebRTCClient] (and so the whole program) behaves the same.  Each
    of the six library-facing member functions prints its first line and
    then "DEMO: ..." with the names of the library calls it stands for,
    changes nothing and (where it returns a value) returns [true]; the
    constructor prints the DEMO-mode lines and [Run] the DEMO banner. *)
Theorem C3_headers_flag_is_always_off (w : bool) :
  Real.WEBRTC_HEADERS_AVAILABLE w = 0%Z
  /\ (forall A (guarded fallback : M Real.RealWebRTCClient A),
         Real.if_headers w guarded fallback = fallback)
  /\ (forall (lib lib' : Real.guarded_code) (m : method),
         Real.call w lib m = Real.call w lib' m)
  /\ (forall (lib lib' : Real.guarded_code),
         Real.main w lib = Real.main w lib')
  /\ (forall (lib : Real.guarded_code) (p : process Real.RealWebRTCClient),
         Real.InitializeWebRTC w lib p =
           (Normal true,
            [Enter m_InitializeWebRTC;
             Cout "Initializing WebRTC...";
             Cout "DEMO: WebRTC initialization simulated";
             Cout "  - CreateDefaultTaskQueueFactory()";
             Cout "  - CreateEnvironment()";
             Cout "  - CreateModularPeerConnectionFactory()";
             Cout "  - CreateBuiltinAudioEncoderFactory()";
             Cout "  - CreateBuiltinVideoEncoderFactory()"],
            p))
  /\ (forall (lib : Real.guarded_code) (p : process Real.RealWebRTCClient),
         Real.CreatePeerConnection w lib p =
           (Normal true,
            [Enter m_CreatePeerConnection;
             Cout "Creating PeerConnection...";
             Cout "DEMO: PeerConnection creation simulated";
             Cout "  - PeerConnectionInterface::RTCConfiguration config";
             Cout "  - config.sdp_semantics = SdpSemantics::kUnifiedPlan";
             Cout "  - peer_connection_factory_->CreatePeerConnection()"],
            p))
  /\ (forall (lib : Real.guarded_code) (p : process Real.RealWebRTCClient),
         Real.AddVideoStream w lib p =
           (Normal true,
            [Enter m_AddVideoStream;
             Cout "Adding video stream...";
             Cout "DEMO: Video stream addition simulated";
             Cout "  - VideoCaptureFactory::CreateDeviceInfo()";
             Cout "  - CreateVideoCapturer()";
             Cout "  - peer_connection_factory_->CreateVideoSource()";
             Cout "  - peer_connection_factory_->CreateVideoTrack()";
             Cout "  - peer_connection_->AddTrack()"],
            p))
  /\ (forall (lib : Real.guarded_code) (p : process Real.RealWebRTCClient),
         Real.AddAudioStream w lib p =
           (Normal true,
            [Enter m_AddAudioStream;
             Cout "Adding audio stream...";
             Cout "DEMO: Audio stream addition simulated";
             Cout "  - peer_connection_factory_->CreateAudioSource()";
             Cout "  - peer_connection_factory_->CreateAudioTrack()";
             Cout "  - peer_connection_->AddTrack()"],
            p))
  /\ (forall (lib : Real.guarded_code) (p : process Real.RealWebRTCClient),
         Real.CreateOffer w lib p =
           (Normal tt,
            [Enter m_CreateOffer;
             Cout "Creating offer...";
             Cout "DEMO: SDP offer creation simulated";
             Cout "  - peer_connection_->CreateOffer()";
             Cout "  - OnSuccess() callback with SessionDescriptionInterface";
             Cout "  - peer_connection_->SetLocalDescription()"],
            p))
  /\ (forall (lib : Real.guarded_code) (p : process Real.RealWebRTCClient),
         Real.StartVideoCapture w lib p =
           (Normal tt,
            [Enter m_StartVideoCapture;
             Cout "Starting video capture...";
             Cout "DEMO: Video capture initialization simulated";
             Cout "  - VideoCaptureFactory::CreateDeviceInfo()";
             Cout "  - device_info->NumberOfDevices()";
             Cout "  - device_info->GetDeviceName()";
             Cout "  - CreateDeviceCapturer() or CreateSquareFrameGenerator()"],
            p))
  /\ (forall (p : process Real.RealWebRTCClient),
         Real.constructor_tail w p =
           (Normal tt,
            [Cout "Running in DEMO mode (WebRTC headers not available)";
             Cout "Showing real WebRTC source code patterns";
             Cout "WebRTC Client initialized!"],
            p))
  /\ (forall (p : process Real.RealWebRTCClient),
         Real.closing_banner w p =
           (Normal tt,
            [Cout (LF ++ "=== Real WebRTC Features Demonstrated ===")%string;
             Cout "ðŸŽ¯ Real WebRTC source code patterns demonstrated";
             Cout "ðŸ“‹ Shows actual WebRTC API usage from conductor.cc";
             Cout "ðŸ”§ Demonstrates proper WebRTC initialization flow";
             Cout "ðŸ“¹ Shows video/audio capture and track creation";
             Cout "ðŸŒ Demonstrates SDP offer/answer and ICE handling";
             Cout "ðŸ’¡ To use real WebRTC, build with WebRTC libraries";
             Cout ("====================================" ++ LF)%string],
            p)).
Proof.
  split; [apply headers_never_available|].
  split; [intros; apply if_headers_fallback|].
  split; [intros lib lib' m; destruct w, m; reflexivity|].
  split; [intros lib lib'; destruct w; reflexivity|].
  repeat split; intros; destruct w; reflexivity.
Qed.

(** ** Exit codes and exceptions *)

(** What [main]'s [try]/[catch] makes of any [try] block: 0 when the block
    completes, 1 exactly when a [std::exception] leaves it; any other
    exception is not caught and [main] does not return. *)
Lemma try_catch_main_cases {O} (body : M O unit) (s : process O) :
  match result (try_catch_main body s) with
  | Normal code =>
      (code = 0%Z /\ result (body s) = Normal tt)
      \/ (code = 1%Z /\ exists what, result (body s) = Thrown (std_exception what))
  | Thrown e => e = non_std_exception /\ result (body s) = Thrown e
  end.
Proof.
  unfold try_catch_main, result.
  destruct (body s) as [[[[]|[what|]] out] s']; simpl.
  - left. split; reflexivity.
  - right. split; [reflexivity | exists what; reflexivity].
  - split; reflexivity.
Qed.

(** The three banner lines of [main] come before the [try] block and leave
    the process as it was. *)
Lemma Stub_main_result (w : bool) (p : process Stub.SimpleWebRTCClient) :
  result (Stub.main w p) = result (try_catch_main (Stub.try_block w) p).
Proof. by_cases. Qed.

Lemma Real_main_result (w : bool) (lib : Real.guarded_code)
    (p : process Real.RealWebRTCClient) :
  result (Real.main w lib p) = result (try_catch_main (Real.try_block w lib) p).
Proof. by_cases. Qed.

Lemma Stub_try_block_completes (w : bool) (p : process Stub.SimpleWebRTCClient) :
  result (Stub.try_block w p) = Normal tt.
Proof. by_cases. Qed.

Lemma Real_try_block_completes (w : bool) (lib : Real.guarded_code)
    (p : process Real.RealWebRTCClient) :
  result (Real.try_block w lib p) = Normal tt.
Proof. by_cases. Qed.

Lemma Stub_main_returns_0 (w : bool) (p : process Stub.SimpleWebRTCClient) :
  result (Stub.main w p) = Normal 0%Z.
Proof. by_cases. Qed.

Lemma Real_main_returns_0 (w : bool) (lib : Real.guarded_code)
    (p : process Real.RealWebRTCClient) :
  result (Real.main w lib p) = Normal 0%Z.
Proof. by_cases. Qed.

(** C4: each [main] returns what its [try]/[catch] skeleton returns for the
    block "construct the client, run it": for any block that is 0, or 1
    exactly when a [std::exception] propagates out of the block; so the
    exit code of either program is 0 or 1 in every run. *)
Theorem C4_exit_code_is_0_or_1
    (w : bool) (lib : Real.guarded_code)
    (p : process Stub.SimpleWebRTCClient) (q : process Real.RealWebRTCClient) :
  (forall O (body : M O unit) (s : process O) (code : Z),
      result (try_catch_main body s) = Normal code ->
      (code = 0%Z /\ result (body s) = Normal tt)
      \/ (code = 1%Z /\ exists what, result (body s) = Thrown (std_exception what)))
  /\ result (Stub.main w p) = result (try_catch_main (Stub.try_block w) p)
  /\ result (Real.main w lib q) = result (try_catch_main (Real.try_block w lib) q)
  /\ (result (Stub.main w p) = Normal 0%Z \/ result (Stub.main w p) = Normal 1%Z)
  /\ (result (Real.main w lib q) = Normal 0%Z
      \/ result (Real.main w lib q) = Normal 1%Z).
Proof.
  split; [|split; [|split; [|split]]].
  - intros O body s code H.
    pose proof (try_catch_main_cases body s) as C. rewrite H in C. exact C.
  - apply Stub_main_result.
  - apply Real_main_result.
  - left. apply Stub_main_returns_0.
  - left. apply Real_main_returns_0.
Qed.

(** The skeleton does return 1 for a block that throws a
    [std::exception], and the stub program returns 0 or 1 on a Windows
    build whose networking fails to start. *)
Lemma C4_exit_code_is_0_or_1_witness :
  result (try_catch_main (throw (std_exception "bad_alloc")) (Stub.start [] 0)) =
    Normal 1%Z
  /\ ((1 = 0)%Z /\ result (@throw Stub.SimpleWebRTCClient unit
                              (std_exception "bad_alloc") (Stub.start [] 0)) =
                    Normal tt
      \/ (1 = 1)%Z /\ exists what,
           result (@throw Stub.SimpleWebRTCClient unit
                     (std_exception "bad_alloc") (Stub.start [] 0)) =
           Thrown (std_exception what))
  /\ (result (Stub.main true (Stub.start [] 10091)) = Normal 0%Z
      \/ result (Stub.main true (Stub.start [] 10091)) = Normal 1%Z).
Proof.
  split; [reflexivity|].
  destruct (C4_exit_code_is_0_or_1 true Real.absent
              (Stub.start [] 10091) (Real.start [] 10091))
    as (Hskel & _ & _ & Hstub & _).
  split; [|exact Hstub].
  exact (Hskel Stub.SimpleWebRTCClient (throw (std_exception "bad_alloc"))
               (Stub.start [] 0) 1%Z eq_refl).
Defined.

(** C5: in the compiled code nothing throws: the constructor, [Run] and the
    whole [try] block complete normally, so [main] returns 0 in every run
    and nothing that starts with "Error: " is written to standard error
    (the only line that can appear there is the constructor's own report
    that Windows networking failed to start). *)
Theorem C5_catch_handler_unreachable
    (w : bool) (lib : Real.guarded_code)
    (p : process Stub.SimpleWebRTCClient) (q : process Real.RealWebRTCClient) :
  (result (Stub.constructor w p) = Normal tt
   /\ result (Stub.Run p) = Normal tt
   /\ result (Stub.try_block w p) = Normal tt
   /\ result (Stub.main w p) = Normal 0%Z
   /\ stderr_writes (events (Stub.main w p)) =
        (if networking_starts w p then []
         else ["Failed to initialize Windows networking"])
   /\ Forall (fun s => prefix "Error: " s = false)
             (stderr_writes (events (Stub.main w p))))
  /\
  (result (Real.constructor w q) = Normal tt
   /\ result (Real.Run w lib q) = Normal tt
   /\ result (Real.try_block w lib q) = Normal tt
   /\ result (Real.main w lib q) = Normal 0%Z
   /\ stderr_writes (events (Real.main w lib q)) =
        (if networking_starts w q then []
         else ["Failed to initialize Windows networking"])
   /\ Forall (fun s => prefix "Error: " s = false)
             (stderr_writes (events (Real.main w lib q)))).
Proof.
  split.
  - clear q. by_cases; repeat split; repeat constructor.
  - clear p. by_cases; repeat split; repeat constructor.
Qed.

(** ** [HandleSignaling] *)

Lemma HandleSignaling_runs (message : string) (p : process Stub.SimpleWebRTCClient) :
  Stub.HandleSignaling message p =
    (Normal tt,
     [Enter m_HandleSignaling;
      Cout ("Handling signaling message: "
            ++ string_of_list_ascii
                 (firstn (Nat.min 50 (String.length message))
                         (list_ascii_of_string message))
            ++ "...")%string],
     p).
Proof.
  unfold Stub.HandleSignaling, bind, lift, emit, cout.
  rewrite substr_from_start. reflexivity.
Qed.

(** ** Member functions one by one *)

(** Every member function of the stub client other than the constructor
    writes the same thing and returns the same value from every process,
    and writes nothing to standard error. *)
Lemma Stub_call_unconditional (w : bool) (message : string) (m : method)
    (c : M Stub.SimpleWebRTCClient (option bool))
    (p : process Stub.SimpleWebRTCClient) :
  Stub.call w m message = Some c ->
  m <> m_constructor ->
  console (events (c p)) = console (events (c (Stub.start [] 0)))
  /\ result (c p) = result (c (Stub.start [] 0))
  /\ stderr_writes (events (c p)) = [].
Proof.
  intros Hc Hm.
  destruct m; try discriminate Hc; try (exfalso; apply Hm; reflexivity);
    injection Hc as <-;
    by_cases; repeat split; reflexivity.
Qed.

Lemma Real_call_unconditional (w : bool) (lib : Real.guarded_code) (m : method)
    (c : M Real.RealWebRTCClient (option bool))
    (p : process Real.RealWebRTCClient) :
  Real.call w lib m = Some c ->
  m <> m_constructor ->
  console (events (c p)) = console (events (c (Real.start [] 0)))
  /\ result (c p) = result (c (Real.start [] 0))
  /\ stderr_writes (events (c p)) = [].
Proof.
  intros Hc Hm.
  destruct m; try discriminate Hc; try (exfalso; apply Hm; reflexivity);
    injection Hc as <-;
    by_cases; repeat split; reflexivity.
Qed.

(** A constructor's console output depends on the process only through
    [networking_starts]. *)
Lemma Stub_constructor_console (w : bool) (p : process Stub.SimpleWebRTCClient) :
  console (events (Stub.constructor w p)) =
    console (events (Stub.constructor w
                       (Stub.start [] (if networking_starts w p then 0 else 1))))
  /\ stderr_writes (events (Stub.constructor w p)) =
       (if networking_starts w p then []
        else ["Failed to initialize Windows networking"]).
Proof. by_cases; split; reflexivity. Qed.

Lemma Real_constructor_console (w : bool) (p : process Real.RealWebRTCClient) :
  console (events (Real.constructor w p)) =
    console (events (Real.constructor w
                       (Real.start [] (if networking_starts w p then 0 else 1))))
  /\ stderr_writes (events (Real.constructor w p)) =
       (if networking_starts w p then []
        else ["Failed to initialize Windows networking"]).
Proof. by_cases; split; reflexivity. Qed.

(** What a member function does besides writing to the console, and what
    it leaves of the process: [Run] reads once from standard input, taking
    a byte if there is one; on a Windows build the constructor calls
    [WSAStartup] and the destructor [WSACleanup]; nothing else happens. *)
Lemma Stub_call_effects (w : bool) (message : string) (m : method)
    (c : M Stub.SimpleWebRTCClient (option bool))
    (p : process Stub.SimpleWebRTCClient) :
  Stub.call w m message = Some c ->
  other_effects (events (c p)) =
    match m with
    | m_Run => [CinGet (hd_error (stdin p))]
    | m_constructor => if w then [WSAStartup (WSAStartup_result p)] else []
    | m_destructor => if w then [WSACleanup] else []
    | _ => []
    end
  /\ final (c p) =
     match m with
     | m_Run => mkProcess (tl (stdin p)) (WSAStartup_result p) (this p)
     | _ => p
     end.
Proof.
  intros Hc.
  destruct m; try discriminate Hc; injection Hc as <-;
    by_cases; split; reflexivity.
Qed.

Lemma Real_call_effects (w : bool) (lib : Real.guarded_code) (m : method)
    (c : M Real.RealWebRTCClient (option bool))
    (p : process Real.RealWebRTCClient) :
  Real.call w lib m = Some c ->
  other_effects (events (c p)) =
    match m with
    | m_Run => [CinGet (hd_error (stdin p))]
    | m_constructor => if w then [WSAStartup (WSAStartup_result p)] else []
    | m_destructor => if w then [WSACleanup] else []
    | _ => []
    end
  /\ final (c p) =
     match m with
     | m_Run => mkProcess (tl (stdin p)) (WSAStartup_result p) (this p)
     | _ => p
     end.
Proof.
  intros Hc.
  destruct m; try discriminate Hc; injection Hc as <-;
    by_cases; split; reflexivity.
Qed.

(** C6, as stated, fails on the compiled code: a member function has
    conditional behaviour that is no check of a handle.  On a Windows build
    two processes with the same object (the same handles, both null) and
    the same input make the constructor print different things, according
    to what [WSAStartup] answers; the report it prints when the answer is
    not 0 is about Windows networking, on standard error, and the
    constructor returns early. *)
Lemma C6_counterexample :
  (this (Real.start [] 0) = this (Real.start [] 10091)
   /\ stdin (Real.start [] 0) = stdin (Real.start [] 10091)
   /\ console (events (Real.constructor true (Real.start [] 0))) <>
      console (events (Real.constructor true (Real.start [] 10091)))
   /\ stderr_writes (events (Real.constructor true (Real.start [] 10091))) =
        ["Failed to initialize Windows networking"])
  /\
  (this (Stub.start [] 0) = this (Stub.start [] 10091)
   /\ stdin (Stub.start [] 0) = stdin (Stub.start [] 10091)
   /\ console (events (Stub.constructor true (Stub.start [] 0))) <>
      console (events (Stub.constructor true (Stub.start [] 10091)))
   /\ stderr_writes (events (Stub.constructor true (Stub.start [] 10091))) =
        ["Failed to initialize Windows networking"]).
Proof.
  split; (split; [reflexivity|]; split; [reflexivity|]; split; [|reflexivity]);
    intros H; apply (f_equal (@List.length event)) in H;
    vm_compute in H; discriminate H.
Qed.

(** C6, amended: in the compiled code every member function of either
    class other than the constructor writes a fixed sequence of lines to
    the console and returns a fixed value, whatever the process: no handle
    is checked, and neither a "not initialized" message nor anything else
    is written to standard error.  Besides writing to the console, [Run]
    reads once from standard input, and on a Windows build the constructor
    calls [WSAStartup] and the destructor [WSACleanup]; every other member
    function does nothing but write to the console and leaves the process
    as it was.  The only conditional behaviour is the constructor's: its
    output is determined by whether Windows networking starts, and when it
    does not the constructor reports that on standard error. *)
Theorem C6_compiled_methods_check_no_handle
    (w : bool) (lib : Real.guarded_code) (message : string) :
  (forall m c p1 p2,
      Stub.call w m message = Some c -> m <> m_constructor ->
      console (events (c p1)) = console (events (c p2))
      /\ result (c p1) = result (c p2)
      /\ stderr_writes (events (c p1)) = [])
  /\ (forall m c q1 q2,
      Real.call w lib m = Some c -> m <> m_constructor ->
      console (events (c q1)) = console (events (c q2))
      /\ result (c q1) = result (c q2)
      /\ stderr_writes (events (c q1)) = [])
  /\ (forall p1 p2,
      networking_starts w p1 = networking_starts w p2 ->
      console (events (Stub.constructor w p1)) =
      console (events (Stub.constructor w p2)))
  /\ (forall q1 q2,
      networking_starts w q1 = networking_starts w q2 ->
      console (events (Real.constructor w q1)) =
      console (events (Real.constructor w q2)))
  /\ (forall p,
      stderr_writes (events (Stub.constructor w p)) =
        (if networking_starts w p then []
         else ["Failed to initialize Windows networking"]))
  /\ (forall q,
      stderr_writes (events (Real.constructor w q)) =
        (if networking_starts w q then []
         else ["Failed to initialize Windows networking"]))
  /\ (forall m c p,
      Stub.call w m message = Some c ->
      other_effects (events (c p)) =
        match m with
        | m_Run => [CinGet (hd_error (stdin p))]
        | m_constructor => if w then [WSAStartup (WSAStartup_result p)] else []
        | m_destructor => if w then [WSACleanup] else []
        | _ => []
        end
      /\ final (c p) =
         match m with
         | m_Run => mkProcess (tl (stdin p)) (WSAStartup_result p) (this p)
         | _ => p
         end)
  /\ (forall m c q,
      Real.call w lib m = Some c ->
      other_effects (events (c q)) =
        match m with
        | m_Run => [CinGet (hd_error (stdin q))]
        | m_constructor => if w then [WSAStartup (WSAStartup_result q)] else []
        | m_destructor => if w then [WSACleanup] else []
        | _ => []
        end
      /\ final (c q) =
         match m with
         | m_Run => mkProcess (tl (stdin q)) (WSAStartup_result q) (this q)
         | _ => q
         end).
Proof.
  split; [|split; [|split; [|split; [|split; [|split; [|split]]]]]].
  - intros m c p1 p2 Hc Hm.
    destruct (Stub_call_unconditional w message m c p1 Hc Hm) as (A1 & B1 & C1).
    destruct (Stub_call_unconditional w message m c p2 Hc Hm) as (A2 & B2 & _).
    rewrite A1, A2, B1, B2. repeat split; assumption.
  - intros m c q1 q2 Hc Hm.
    destruct (Real_call_unconditional w lib m c q1 Hc Hm) as (A1 & B1 & C1).
    destruct (Real_call_unconditional w lib m c q2 Hc Hm) as (A2 & B2 & _).
    rewrite A1, A2, B1, B2. repeat split; assumption.
  - intros p1 p2 H.
    rewrite (proj1 (Stub_constructor_console w p1)),
            (proj1 (Stub_constructor_console w p2)), H. reflexivity.
  - intros q1 q2 H.
    rewrite (proj1 (Real_constructor_console w q1)),
            (proj1 (Real_constructor_console w q2)), H. reflexivity.
  - intros p. apply Stub_constructor_console.
  - intros q. apply Real_constructor_console.
  - intros m c p Hc. exact (Stub_call_effects w message m c p Hc).
  - intros m c q Hc. exact (Real_call_effects w lib m c q Hc).
Qed.

(** [CreatePeerConnection] of the real client writes and returns the same
    with null handles as with handles that are set, and [Run] of the stub
    client reads the byte that is waiting. *)
Lemma C6_compiled_methods_check_no_handle_witness :
  Real.call true Real.absent m_CreatePeerConnection =
    Some (returns_bool (Real.CreatePeerConnection true Real.absent))
  /\ m_CreatePeerConnection <> m_constructor
  /\ console (events (returns_bool (Real.CreatePeerConnection true Real.absent)
                        (Real.start [] 0))) =
     console (events (returns_bool (Real.CreatePeerConnection true Real.absent)
                        (mkProcess ["a"%char] 10091
                           (Real.mkRealWebRTCClient (Some 1) (Some 2)))))
  /\ other_effects (events (returns_void Stub.Run (Stub.start ["a"%char] 0))) =
       [CinGet (Some "a"%char)].
Proof.
  split; [reflexivity|]. split; [discriminate|].
  destruct (C6_compiled_methods_check_no_handle true Real.absent "")
    as (_ & Hreal & _ & _ & _ & _ & Hstub & _).
  split.
  - refine (proj1 (Hreal m_CreatePeerConnection _ _ _ eq_refl _)).
    discriminate.
  - exact (proj1 (Hstub m_Run (returns_void Stub.Run)
                        (Stub.start ["a"%char] 0) eq_refl)).
Defined.

(** ** The read from standard input *)

(** Every run, also one that finds standard input at its end, reads from
    it exactly once. *)
Lemma Stub_main_reads_once (w : bool) (p : process Stub.SimpleWebRTCClient) :
  stdin_reads (events (Stub.main w p)) = [hd_error (stdin p)]
  /\ stdin (final (Stub.main w p)) = tl (stdin p).
Proof. by_cases; split; reflexivity. Qed.

Lemma Real_main_reads_once (w : bool) (lib : Real.guarded_code)
    (p : process Real.RealWebRTCClient) :
  stdin_reads (events (Real.main w lib p)) = [hd_error (stdin p)]
  /\ stdin (final (Real.main w lib p)) = tl (stdin p).
Proof. by_cases; split; reflexivity. Qed.

(** C7, as stated, fails: a run that finds standard input at its end
    consumes no character at all.  Its one [std::cin.get()] returns the
    end-of-input mark, the input is as it was, and the program terminates
    with exit code 0 all the same. *)
Lemma C7_counterexample :
  (stdin_reads (events (Stub.main false (Stub.start [] 0))) = [None]
   /\ stdin (final (Stub.main false (Stub.start [] 0))) =
      stdin (Stub.start [] 0)
   /\ ~ (exists c rest,
           stdin (Stub.start [] 0) =
             c :: rest ++ stdin (final (Stub.main false (Stub.start [] 0))))
   /\ result (Stub.main false (Stub.start [] 0)) = Normal 0%Z)
  /\
  (stdin_reads (events (Real.main false Real.absent (Real.start [] 0))) = [None]
   /\ stdin (final (Real.main false Real.absent (Real.start [] 0))) =
      stdin (Real.start [] 0)
   /\ ~ (exists c rest,
           stdin (Real.start [] 0) =
             c :: rest
               ++ stdin (final (Real.main false Real.absent (Real.start [] 0))))
   /\ result (Real.main false Real.absent (Real.start [] 0)) = Normal 0%Z).
Proof.
  split; (split; [reflexivity|]; split; [reflexivity|]; split; [|reflexivity]);
    intros (c & rest & H); discriminate H.
Qed.

(** C7, amended: in every run each program prints the closing banner and
    the prompt and then reads exactly once from standard input: that read
    takes the first character if there is one and nothing at end of input,
    and all the input after it is left unread.  Then the program
    terminates with exit code 0: what follows the read is the destructor
    only, which reads and prints nothing; nothing before the prompt reads
    from standard input either. *)
Theorem C7_one_read_after_prompt
    (w : bool) (lib : Real.guarded_code)
    (p : process Stub.SimpleWebRTCClient) (q : process Real.RealWebRTCClient) :
  (exists before after,
      events (Stub.main w p) =
        before ++ events (Stub.closing_banner p)
               ++ [Cout "Press Enter to exit..."; CinGet (hd_error (stdin p))]
               ++ after
      /\ stdin_reads before = []
      /\ stdin_reads after = []
      /\ console after = []
      /\ stdin_reads (events (Stub.main w p)) = [hd_error (stdin p)]
      /\ stdin (final (Stub.main w p)) = tl (stdin p)
      /\ result (Stub.main w p) = Normal 0%Z)
  /\
  (exists before after,
      events (Real.main w lib q) =
        before ++ events (Real.closing_banner w q)
               ++ [Cout "Press Enter to exit..."; CinGet (hd_error (stdin q))]
               ++ after
      /\ stdin_reads before = []
      /\ stdin_reads after = []
      /\ console after = []
      /\ stdin_reads (events (Real.main w lib q)) = [hd_error (stdin q)]
      /\ stdin (final (Real.main w lib q)) = tl (stdin q)
      /\ result (Real.main w lib q) = Normal 0%Z).
Proof.
  pose (tail := if w then 2 else 1).
  split.
  - clear q.
    set (ev := events (Stub.main w p)).
    exists (firstn (List.length ev - tail - 2 - 9) ev),
           (skipn (List.length ev - tail) ev).
    subst ev tail. by_cases; repeat split; reflexivity.
  - clear p.
    set (ev := events (Real.main w lib q)).
    exists (firstn (List.length ev - tail - 2 - 8) ev),
           (skipn (List.length ev - tail) ev).
    subst ev tail. by_cases; repeat split; reflexivity.
Qed.

(** ** No state across operations *)

(** A member function leaves the data members and the answer of
    [WSAStartup] as they were and completes normally; all but [Run] leave
    the whole process as it was; only [Run] reads standard input and only
    the constructor and the destructor call the socket layer. *)
Lemma Stub_call_frame (w : bool) (message : string) (m : method)
    (c : M Stub.SimpleWebRTCClient (option bool))
    (p : process Stub.SimpleWebRTCClient) :
  Stub.call w m message = Some c ->
  (exists r, result (c p) = Normal r)
  /\ WSAStartup_result (final (c p)) = WSAStartup_result p
  /\ this (final (c p)) = this p
  /\ (m <> m_Run -> final (c p) = p)
  /\ (m <> m_Run -> m <> m_constructor -> m <> m_destructor ->
      other_effects (events (c p)) = []).
Proof.
  intros Hc.
  destruct m; try discriminate Hc; injection Hc as <-;
    by_cases; repeat split; try reflexivity;
    try (eexists; reflexivity);
    try (intros H; exfalso; apply H; reflexivity);
    try (intros _ H; exfalso; apply H; reflexivity);
    try (intros _ _ H; exfalso; apply H; reflexivity).
Qed.

Lemma Real_call_frame (w : bool) (lib : Real.guarded_code) (m : method)
    (c : M Real.RealWebRTCClient (option bool))
    (p : process Real.RealWebRTCClient) :
  Real.call w lib m = Some c ->
  (exists r, result (c p) = Normal r)
  /\ WSAStartup_result (final (c p)) = WSAStartup_result p
  /\ this (final (c p)) = this p
  /\ (m <> m_Run -> final (c p) = p)
  /\ (m <> m_Run -> m <> m_constructor -> m <> m_destructor ->
      other_effects (events (c p)) = []).
Proof.
  intros Hc.
  destruct m; try discriminate Hc; injection Hc as <-;
    by_cases; repeat split; try reflexivity;
    try (eexists; reflexivity);
    try (intros H; exfalso; apply H; reflexivity);
    try (intros _ H; exfalso; apply H; reflexivity);
    try (intros _ _ H; exfalso; apply H; reflexivity).
Qed.

(** What a member function writes and returns depends on the process only
    through [networking_starts]. *)
Lemma Stub_call_console (w : bool) (message : string) (m : method)
    (c : M Stub.SimpleWebRTCClient (option bool))
    (p : process Stub.SimpleWebRTCClient) :
  Stub.call w m message = Some c ->
  console (events (c p)) =
    console (events (c (Stub.start [] (if networking_starts w p then 0 else 1))))
  /\ result (c p) =
     result (c (Stub.start [] (if networking_starts w p then 0 else 1))).
Proof.
  intros Hc.
  destruct m; try discriminate Hc; injection Hc as <-;
    by_cases; split; reflexivity.
Qed.

Lemma Real_call_console (w : bool) (lib : Real.guarded_code) (m : method)
    (c : M Real.RealWebRTCClient (option bool))
    (p : process Real.RealWebRTCClient) :
  Real.call w lib m = Some c ->
  console (events (c p)) =
    console (events (c (Real.start [] (if networking_starts w p then 0 else 1))))
  /\ result (c p) =
     result (c (Real.start [] (if networking_starts w p then 0 else 1))).
Proof.
  intros Hc.
  destruct m; try discriminate Hc; injection Hc as <-;
    by_cases; split; reflexivity.
Qed.

(** Any sequence of member functions that each complete and preserve the
    data members and the answer of [WSAStartup] does so as a whole. *)
Lemma invoke_all_frame {O} (call : method -> option (M O (option bool))) :
  (forall m c p, call m = Some c ->
      (exists r, result (c p) = Normal r)
      /\ WSAStartup_result (final (c p)) = WSAStartup_result p
      /\ this (final (c p)) = this p) ->
  forall (ms : list method) (p : process O),
    result (invoke_all call ms p) = Normal tt
    /\ WSAStartup_result (final (invoke_all call ms p)) = WSAStartup_result p
    /\ this (final (invoke_all call ms p)) = this p.
Proof.
  intros Hcall ms. induction ms as [|m ms IH]; intros p.
  - repeat split.
  - simpl. destruct (call m) as [c|] eqn:Hm; [|apply IH].
    destruct (Hcall m c p Hm) as ((r & Hr) & Hw & Ht).
    specialize (IH (final (c p))). destruct IH as (Ir & Iw & It).
    unfold bind, result, final in *.
    destruct (c p) as [[rc out1] p1]. simpl in *. subst rc.
    destruct (invoke_all call ms p1) as [[r2 out2] p2]. simpl in *.
    repeat split; congruence.
Qed.

Lemma networking_starts_eq {O} (w : bool) (p p' : process O) :
  WSAStartup_result p' = WSAStartup_result p ->
  networking_starts w p' = networking_starts w p.
Proof. unfold networking_starts. intros ->. reflexivity. Qed.

(** C8, as stated, fails: not every member function changes nothing but
    the console output.  [Run] takes a byte from standard input, so the
    process after it is not the process before it; and on a Windows build
    the constructor calls [WSAStartup] and the destructor [WSACleanup]. *)
Lemma C8_counterexample :
  final (Stub.Run (Stub.start ["a"%char] 0)) <> Stub.start ["a"%char] 0
  /\ other_effects (events (Stub.Run (Stub.start ["a"%char] 0))) =
       [CinGet (Some "a"%char)]
  /\ final (Real.Run false Real.absent (Real.start ["a"%char] 0)) <>
       Real.start ["a"%char] 0
  /\ other_effects (events (Real.Run false Real.absent (Real.start ["a"%char] 0))) =
       [CinGet (Some "a"%char)]
  /\ other_effects (events (Stub.constructor true (Stub.start [] 0))) =
       [WSAStartup 0]
  /\ other_effects (events (Real.destructor true (Real.start [] 0))) =
       [WSACleanup].
Proof.
  split; [vm_compute; discriminate|]. split; [reflexivity|].
  split; [vm_compute; discriminate|]. repeat split.
Qed.

(** C8, amended: neither client object carries state across operations.
    For every member function [m] of either class, in the compiled code:
    invoking it leaves the data members as they were; what it writes to
    the console and what it returns are the same after any sequence
    [prior] of other invocations on the same object as without them, and
    the same whatever values the data members hold.  Every member function
    other than [Run], the constructor and the destructor does nothing but
    write to the console and leaves the whole process as it was; [Run]
    also reads once from standard input and takes a byte of it if there is
    one; on a Windows build the constructor also calls [WSAStartup] and the
    destructor [WSACleanup]. *)
Theorem C8_no_state_across_operations
    (w : bool) (lib : Real.guarded_code) (message : string)
    (prior : list method) (m : method) :
  (forall c p,
      Stub.call w m message = Some c ->
      this (final (c p)) = this p
      /\ final (c p) =
         match m with
         | m_Run => mkProcess (tl (stdin p)) (WSAStartup_result p) (this p)
         | _ => p
         end
      /\ other_effects (events (c p)) =
         match m with
         | m_Run => [CinGet (hd_error (stdin p))]
         | m_constructor => if w then [WSAStartup (WSAStartup_result p)] else []
         | m_destructor => if w then [WSACleanup] else []
         | _ => []
         end
      /\ result (c (final (invoke_all (fun m' => Stub.call w m' message) prior p))) =
         result (c p)
      /\ console
           (events (c (final (invoke_all (fun m' => Stub.call w m' message) prior p)))) =
         console (events (c p))
      /\ (forall obj,
             result (c (with_members p obj)) = result (c p)
             /\ console (events (c (with_members p obj))) = console (events (c p))))
  /\
  (forall c q,
      Real.call w lib m = Some c ->
      this (final (c q)) = this q
      /\ final (c q) =
         match m with
         | m_Run => mkProcess (tl (stdin q)) (WSAStartup_result q) (this q)
         | _ => q
         end
      /\ other_effects (events (c q)) =
         match m with
         | m_Run => [CinGet (hd_error (stdin q))]
         | m_constructor => if w then [WSAStartup (WSAStartup_result q)] else []
         | m_destructor => if w then [WSACleanup] else []
         | _ => []
         end
      /\ result (c (final (invoke_all (Real.call w lib) prior q))) = result (c q)
      /\ console (events (c (final (invoke_all (Real.call w lib) prior q)))) =
         console (events (c q))
      /\ (forall obj,
             result (c (with_members q obj)) = result (c q)
             /\ console (events (c (with_members q obj))) = console (events (c q)))).
Proof.
  split.
  - intros c p Hc.
    destruct (Stub_call_frame w message m c p Hc) as (_ & _ & Ht & _ & _).
    destruct (Stub_call_effects w message m c p Hc) as (Ho & Hf).
    assert (Hprior :
      networking_starts w
        (final (invoke_all (fun m' => Stub.call w m' message) prior p)) =
      networking_starts w p).
    { apply networking_starts_eq.
      apply (invoke_all_frame (fun m' => Stub.call w m' message)).
      intros m0 c0 p0 H0.
      destruct (Stub_call_frame w message m0 c0 p0 H0) as (A & B & C & _ & _).
      repeat split; assumption. }
    split; [exact Ht|]. split; [exact Hf|]. split; [exact Ho|].
    destruct (Stub_call_console w message m c p Hc) as (Hcon & Hres).
    split; [|split; [|intros obj; split]].
    + rewrite (proj2 (Stub_call_console w message m c _ Hc)), Hprior, Hres.
      reflexivity.
    + rewrite (proj1 (Stub_call_console w message m c _ Hc)), Hprior, Hcon.
      reflexivity.
    + rewrite (proj2 (Stub_call_console w message m c _ Hc)), Hres. reflexivity.
    + rewrite (proj1 (Stub_call_console w message m c _ Hc)), Hcon. reflexivity.
  - intros c q Hc.
    destruct (Real_call_frame w lib m c q Hc) as (_ & _ & Ht & _ & _).
    destruct (Real_call_effects w lib m c q Hc) as (Ho & Hf).
    assert (Hprior :
      networking_starts w (final (invoke_all (Real.call w lib) prior q)) =
      networking_starts w q).
    { apply networking_starts_eq.
      apply (invoke_all_frame (Real.call w lib)).
      intros m0 c0 p0 H0.
      destruct (Real_call_frame w lib m0 c0 p0 H0) as (A & B & C & _ & _).
      repeat split; assumption. }
    split; [exact Ht|]. split; [exact Hf|]. split; [exact Ho|].
    destruct (Real_call_console w lib m c q Hc) as (Hcon & Hres).
    split; [|split; [|intros obj; split]].
    + rewrite (proj2 (Real_call_console w lib m c _ Hc)), Hprior, Hres.
      reflexivity.
    + rewrite (proj1 (Real_call_console w lib m c _ Hc)), Hprior, Hcon.
      reflexivity.
    + rewrite (proj2 (Real_call_console w lib m c _ Hc)), Hres. reflexivity.
    + rewrite (proj1 (Real_call_console w lib m c _ Hc)), Hcon. reflexivity.
Qed.

(** [Run] of the stub client writes the same after [Run], the constructor
    and [AddVideoStream] have been invoked on the object as on a fresh
    one, and takes the byte that is waiting. *)
Lemma C8_no_state_across_operations_witness :
  Stub.call true m_Run "" = Some (returns_void Stub.Run)
  /\ console
       (events
          (returns_void Stub.Run
             (final (invoke_all (fun m' => Stub.call true m' "")
                       [m_Run; m_constructor; m_AddVideoStream]
                       (Stub.start ["a"%char; "b"%char] 0))))) =
     console (events (returns_void Stub.Run (Stub.start ["a"%char; "b"%char] 0)))
  /\ other_effects
       (events (returns_void Stub.Run (Stub.start ["a"%char; "b"%char] 0))) =
     [CinGet (Some "a"%char)].
Proof.
  split; [reflexivity|].
  destruct (C8_no_state_across_operations true Real.absent ""
              [m_Run; m_constructor; m_AddVideoStream] m_Run)
    as (Hstub & _).
  destruct (Hstub (returns_void Stub.Run) (Stub.start ["a"%char; "b"%char] 0)
                  eq_refl)
    as (_ & _ & Heff & _ & Hconsole & _).
  split; [exact Hconsole | exact Heff].
Defined.

(** ** The boolean operations of the real client *)

(** C9: in the compiled code [InitializeWebRTC], [CreatePeerConnection],
    [AddVideoStream] and [AddAudioStream] return [true] from every process;
    so [Run] never takes an early return: it prints neither "Failed to
    initialize WebRTC" nor "Failed to create peer connection" (it writes
    nothing at all to standard error), completes, and ends with the closing
    banner, the prompt and the read from standard input. *)
Theorem C9_boolean_operations_return_true
    (w : bool) (lib : Real.guarded_code) (q : process Real.RealWebRTCClient) :
  result (Real.InitializeWebRTC w lib q) = Normal true
  /\ result (Real.CreatePeerConnection w lib q) = Normal true
  /\ result (Real.AddVideoStream w lib q) = Normal true
  /\ result (Real.AddAudioStream w lib q) = Normal true
  /\ ~ In (Cerr "Failed to initialize WebRTC") (events (Real.Run w lib q))
  /\ ~ In (Cerr "Failed to create peer connection") (events (Real.Run w lib q))
  /\ stderr_writes (events (Real.Run w lib q)) = []
  /\ result (Real.Run w lib q) = Normal tt
  /\ exists before,
       events (Real.Run w lib q) =
         before ++ events (Real.closing_banner w q)
                ++ [Cout "Press Enter to exit..."; CinGet (hd_error (stdin q))].
Proof.
  assert (Herr : stderr_writes (events (Real.Run w lib q)) = []) by by_cases.
  split; [by_cases|]. split; [by_cases|].
  split; [by_cases|]. split; [by_cases|].
  split; [intros H; apply Cerr_in_stderr_writes in H; rewrite Herr in H; exact H|].
  split; [intros H; apply Cerr_in_stderr_writes in H; rewrite Herr in H; exact H|].
  split; [exact Herr|]. split; [by_cases|].
  exists (firstn 48 (events (Real.Run w lib q))). by_cases.
Qed.

(** ** [HandleSignaling] is total and unused *)

(** C10: for every message, [substr(0, 50)] does not throw and
    [HandleSignaling] prints one line: the first min(50, length) bytes of
    the message after "Handling signaling message: " and before "...",
    leaving the process as it was.  Neither [Run] nor [main] ever enters
    [HandleSignaling], and no line of a run's standard output starts with
    its text. *)
Theorem C10_HandleSignaling_total_and_unused
    (w : bool) (message : string) (p : process Stub.SimpleWebRTCClient) :
  substr message 0 50 =
    Normal (string_of_list_ascii
              (firstn (Nat.min 50 (String.length message))
                      (list_ascii_of_string message)))
  /\ Stub.HandleSignaling message p =
       (Normal tt,
        [Enter m_HandleSignaling;
         Cout ("Handling signaling message: "
               ++ string_of_list_ascii
                    (firstn (Nat.min 50 (String.length message))
                            (list_ascii_of_string message))
               ++ "...")%string],
        p)
  /\ ~ In m_HandleSignaling (calls (events (Stub.Run p)))
  /\ ~ In m_HandleSignaling (calls (events (Stub.main w p)))
  /\ Forall (fun s => prefix "Handling signaling message: " s = false)
            (stdout_writes (events (Stub.main w p))).
Proof.
  split; [apply substr_from_start|].
  split; [apply HandleSignaling_runs|].
  split; [|split].
  - split_process p; not_in_list.
  - destruct w; split_process p; not_in_list.
  - by_cases; repeat constructor.
Qed.

(** * More on the two compiled programs *)

(** ** The socket layer and the life of the client object *)

(** On a Windows build [main] calls [WSAStartup] once, inside the
    constructor, and [WSACleanup] once, as its very last action, also when
    [WSAStartup] has failed; any other build calls neither.  The one read
    from standard input lies between the two.  The object is constructed
    first and destroyed last. *)
Theorem socket_layer_calls_paired
    (w : bool) (lib : Real.guarded_code)
    (p : process Stub.SimpleWebRTCClient) (q : process Real.RealWebRTCClient) :
  other_effects (events (Stub.main w p)) =
    (if w
     then [WSAStartup (WSAStartup_result p); CinGet (hd_error (stdin p)); WSACleanup]
     else [CinGet (hd_error (stdin p))])
  /\ other_effects (events (Real.main w lib q)) =
    (if w
     then [WSAStartup (WSAStartup_result q); CinGet (hd_error (stdin q)); WSACleanup]
     else [CinGet (hd_error (stdin q))])
  /\ calls (events (Stub.main w p)) =
       m_constructor :: calls (events (Stub.Run p)) ++ [m_destructor]
  /\ calls (events (Real.main w lib q)) =
       m_constructor :: calls (events (Real.Run w lib q)) ++ [m_destructor]
  /\ last (events (Stub.main w p)) WSACleanup =
       (if w then WSACleanup else Enter m_destructor)
  /\ last (events (Real.main w lib q)) WSACleanup =
       (if w then WSACleanup else Enter m_destructor).
Proof.
  split; [clear q; by_cases|]. split; [clear p; by_cases|].
  split; [clear q; by_cases|]. split; [clear p; by_cases|].
  split; [clear q; by_cases | clear p; by_cases].
Qed.

(** ** A failed start of Windows networking is not fatal *)

(** When [WSAStartup] does not answer 0 on a Windows build, the
    constructor returns early but the program goes on: it runs all of
    [Run], waits for the keypress and returns 0.  Its standard output is
    that of the run in which networking starts without the lines the
    constructor skipped: two for the stub client, four (the two DEMO-mode
    lines among them) for the real one. *)
Theorem networking_failure_only_skips_constructor_lines
    (lib : Real.guarded_code)
    (p : process Stub.SimpleWebRTCClient) (q : process Real.RealWebRTCClient) :
  Z.eqb (WSAStartup_result p) 0 = false ->
  Z.eqb (WSAStartup_result q) 0 = false ->
  (exists before after,
      stdout_writes (events (Stub.main true (mkProcess (stdin p) 0 (this p)))) =
        before ++ ["Windows networking initialized";
                   "WebRTC Client initialized (stub version)!"] ++ after
      /\ stdout_writes (events (Stub.main true p)) = before ++ after
      /\ calls (events (Stub.main true p)) =
         calls (events (Stub.main true (mkProcess (stdin p) 0 (this p))))
      /\ stdin_reads (events (Stub.main true p)) = [hd_error (stdin p)]
      /\ result (Stub.main true p) = Normal 0%Z)
  /\
  (exists before after,
      stdout_writes (events (Real.main true lib (mkProcess (stdin q) 0 (this q)))) =
        before ++ ["Windows networking initialized";
                   "Running in DEMO mode (WebRTC headers not available)";
                   "Showing real WebRTC source code patterns";
                   "WebRTC Client initialized!"] ++ after
      /\ stdout_writes (events (Real.main true lib q)) = before ++ after
      /\ calls (events (Real.main true lib q)) =
         calls (events (Real.main true lib (mkProcess (stdin q) 0 (this q))))
      /\ stdin_reads (events (Real.main true lib q)) = [hd_error (stdin q)]
      /\ result (Real.main true lib q) = Normal 0%Z).
Proof.
  intros Hp Hq. split.
  - clear Hq q.
    exists (firstn 6 (stdout_writes (events (Stub.main true (Stub.start [] 0))))),
           (skipn 8 (stdout_writes (events (Stub.main true (Stub.start [] 0))))).
    destruct p as [input wsa obj]; simpl in Hp.
    destruct wsa; try discriminate Hp; destruct input;
      vm_compute; repeat split; reflexivity.
  - clear Hp p.
    exists (firstn 4 (stdout_writes
                        (events (Real.main true lib (Real.start [] 0))))),
           (skipn 8 (stdout_writes
                       (events (Real.main true lib (Real.start [] 0))))).
    destruct q as [input wsa obj]; simpl in Hq.
    destruct wsa; try discriminate Hq; destruct input;
      vm_compute; repeat split; reflexivity.
Qed.

(** A run in which the socket layer reports WSASYSNOTREADY. *)
Lemma networking_failure_only_skips_constructor_lines_witness :
  Z.eqb (WSAStartup_result (Stub.start ["a"%char] 10091)) 0 = false
  /\ result (Stub.main true (Stub.start ["a"%char] 10091)) = Normal 0%Z
  /\ stdin_reads (events (Real.main true Real.absent (Real.start [] 10091))) =
       [None].
Proof.
  split; [reflexivity|].
  destruct (networking_failure_only_skips_constructor_lines Real.absent
              (Stub.start ["a"%char] 10091) (Real.start [] 10091)
              eq_refl eq_refl)
    as [(b & a & _ & _ & _ & _ & Hres) (b' & a' & _ & _ & _ & Hreads & _)].
  split; [exact Hres | exact Hreads].
Defined.

(** ** Sequences of invocations *)

Lemma bind_normal {O A B} (c : M O A) (k : A -> M O B) (p : process O) (a : A) :
  result (c p) = Normal a ->
  result (bind c k p) = result (k a (final (c p)))
  /\ events (bind c k p) = events (c p) ++ events (k a (final (c p)))
  /\ final (bind c k p) = final (k a (final (c p))).
Proof.
  unfold bind, result, events, final.
  destruct (c p) as [[r out1] p1]. simpl. intros ->.
  destruct (k a p1) as [[r2 out2] p2]. repeat split.
Qed.

Lemma bind_thrown {O A B} (c : M O A) (k : A -> M O B) (p : process O) (e : exn) :
  result (c p) = Thrown e ->
  result (bind c k p) = Thrown e
  /\ events (bind c k p) = events (c p)
  /\ final (bind c k p) = final (c p).
Proof.
  unfold bind, result, events, final.
  destruct (c p) as [[r out1] p1]. simpl. intros ->. repeat split.
Qed.






(** ** What [HandleSignaling] shows of a message *)

Lemma string_length_app (s t : string) :
  String.length (s ++ t) = String.length s + String.length t.
Proof. induction s as [|c s IH]; simpl; [reflexivity | now rewrite IH]. Qed.

Lemma length_list_ascii_of_string (s : string) :
  List.length (list_ascii_of_string s) = String.length s.
Proof. induction s as [|c s IH]; simpl; [reflexivity | now rewrite IH]. Qed.

Lemma length_string_of_list_ascii (l : list ascii) :
  String.length (string_of_list_ascii l) = List.length l.
Proof. induction l as [|c l IH]; simpl; [reflexivity | now rewrite IH]. Qed.

(** A message of at most 50 bytes is printed whole, the empty one
    included, and the three dots follow it although nothing was cut. *)
Theorem HandleSignaling_short_message_whole
    (message : string) (p : process Stub.SimpleWebRTCClient) :
  String.length message <= 50 ->
  Stub.HandleSignaling message p =
    (Normal tt,
     [Enter m_HandleSignaling;
      Cout ("Handling signaling message: " ++ message ++ "...")%string],
     p).
Proof.
  intros Hlen. rewrite HandleSignaling_runs.
  rewrite Nat.min_r by exact Hlen.
  rewrite <- length_list_ascii_of_string, firstn_all,
    string_of_list_ascii_of_string.
  reflexivity.
Qed.

Lemma HandleSignaling_short_message_whole_witness :
  String.length "candidate:1 1 UDP" <= 50
  /\ events (Stub.HandleSignaling "candidate:1 1 UDP" (Stub.start [] 0)) =
       [Enter m_HandleSignaling;
        Cout "Handling signaling message: candidate:1 1 UDP..."].
Proof.
  assert (H : String.length "candidate:1 1 UDP" <= 50) by (vm_compute; repeat constructor).
  split; [exact H|].
  rewrite (HandleSignaling_short_message_whole "candidate:1 1 UDP"
             (Stub.start [] 0) H).
  reflexivity.
Defined.

(** Whatever the message, the line [HandleSignaling] prints has
    31 + min(50, length) bytes, so never more than 81; and a message is
    handled exactly as its first 50 bytes are: what lies beyond them never
    reaches the output. *)
Theorem HandleSignaling_cuts_at_50_bytes
    (message : string) (p : process Stub.SimpleWebRTCClient) :
  (exists line,
      events (Stub.HandleSignaling message p) = [Enter m_HandleSignaling; Cout line]
      /\ String.length line = 31 + Nat.min 50 (String.length message)
      /\ String.length line <= 81)
  /\ Stub.HandleSignaling (substring 0 50 message) p =
     Stub.HandleSignaling message p.
Proof.
  split.
  - rewrite HandleSignaling_runs. eexists. split; [reflexivity|].
    rewrite !string_length_app, length_string_of_list_ascii, length_firstn,
      length_list_ascii_of_string.
    rewrite (Nat.min_l (Nat.min 50 (String.length message)))
      by apply Nat.le_min_r.
    simpl String.length. lia.
  - rewrite !HandleSignaling_runs. rewrite substring_firstn.
    rewrite list_ascii_of_string_of_list_ascii, length_string_of_list_ascii,
      length_firstn, length_list_ascii_of_string, firstn_firstn.
    replace (Nat.min (Nat.min 50 (Nat.min 50 (String.length message))) 50)
      with (Nat.min 50 (String.length message)) by lia.
    reflexivity.
Qed.


(** * The guarded text, with a library *)

Ltac unfold_monad :=
  cbv [bind ret emit cout cerr lift throw get_this set_this try_catch_std
       with_members result events final fst snd
       Headers.set_peer_connection_factory_ Headers.set_peer_connection_].

Ltac ask_library :=
  repeat (match goal with
          | |- context [match ?a with Normal _ => _ | Thrown _ => _ end] =>
              let E := fresh "E" in destruct a as [?|[?|]] eqn:E
          | |- context [match ?a with Some _ => _ | None => _ end] =>
              let E := fresh "E" in destruct a as [?|] eqn:E
          | |- context [match ?a with
                        | Library.AddTrack_ok => _
                        | Library.AddTrack_error _ => _ end] =>
              let E := fresh "E" in destruct a as [|?] eqn:E
          | |- context [if ?b then _ else _] =>
              let E := fresh "E" in destruct b eqn:E
          end;
          cbn [app this stdin WSAStartup_result
               Real.peer_connection_factory_ Real.peer_connection_]).

(** ** [InitializeWebRTC] *)


(** [InitializeWebRTC] lets no [std::exception] out: whatever the library
    does, it returns, or ends by an exception that is no
    [std::exception].  It returns [true] exactly when the three library
    calls all give an object, and then the factory handle is set and
    nothing is on standard error; when it returns [false] exactly one
    report is on standard error, and the factory handle is as before or
    null.  It never touches the peer connection or standard input. *)
Theorem InitializeWebRTC_contains_std_exceptions
    (L : Library.library) (p : process Real.RealWebRTCClient) :
  (forall e, result (Headers.InitializeWebRTC L p) = Thrown e ->
             e = non_std_exception)
  /\ (result (Headers.InitializeWebRTC L p) = Normal true <->
      exists q e f,
        Library.CreateDefaultTaskQueueFactory L = Normal (Some q)
        /\ Library.CreateEnvironment L q = Normal (Some e)
        /\ Library.CreateModularPeerConnectionFactory L e = Normal (Some f))
  /\ (result (Headers.InitializeWebRTC L p) = Normal true ->
      Real.peer_connection_factory_ (this (final (Headers.InitializeWebRTC L p)))
        <> None
      /\ stderr_writes (events (Headers.InitializeWebRTC L p)) = [])
  /\ (result (Headers.InitializeWebRTC L p) = Normal false ->
      (exists report,
          stderr_writes (events (Headers.InitializeWebRTC L p)) = [report]
          /\ (report = "Failed to create task queue factory"
              \/ report = "Failed to create environment"
              \/ report = "Failed to create peer connection factory"
              \/ exists what,
                  report = ("WebRTC initialization failed: " ++ what)%string))
      /\ (Real.peer_connection_factory_
            (this (final (Headers.InitializeWebRTC L p))) =
          Real.peer_connection_factory_ (this p)
          \/ Real.peer_connection_factory_
               (this (final (Headers.InitializeWebRTC L p))) = None))
  /\ Real.peer_connection_ (this (final (Headers.InitializeWebRTC L p))) =
     Real.peer_connection_ (this p)
  /\ stdin (final (Headers.InitializeWebRTC L p)) = stdin p.
Proof.
  unfold Headers.InitializeWebRTC, Headers.guarded_InitializeWebRTC.
  unfold_monad. ask_library.
  all: repeat match goal with |- _ /\ _ => split | |- _ <-> _ => split end.
  all: try reflexivity.
  all: try (intros e0 H; try discriminate H; injection H as H; subst; reflexivity).
  all: try (intros H; discriminate H).
  all: try (intros (q0 & e0 & f0 & H1 & H2 & H3); congruence).
  all: try (intros _; eauto 6; fail).
  all: try (intros _; split; [discriminate | reflexivity]).
  all: try (intros _; split; [eexists; split; [reflexivity|]; eauto 6 | auto]; fail).
Qed.

(** With the library [working] the initialization succeeds and the
    factory handle is set. *)
Lemma InitializeWebRTC_contains_std_exceptions_witness :
  result (Headers.InitializeWebRTC Library.working (Real.start [] 0)) = Normal true
  /\ Real.peer_connection_factory_
       (this (final (Headers.InitializeWebRTC Library.working (Real.start [] 0))))
     <> None.
Proof.
  split; [reflexivity|].
  destruct (InitializeWebRTC_contains_std_exceptions Library.working
              (Real.start [] 0)) as (_ & _ & H & _).
  exact (proj1 (H eq_refl)).
Defined.

Lemma InitializeWebRTC_sets_handle
    (L : Library.library) (p : process Real.RealWebRTCClient) :
  (result (Headers.InitializeWebRTC L p) = Normal true ->
   Real.peer_connection_factory_ (this (final (Headers.InitializeWebRTC L p)))
     <> None)
  /\ stdin (final (Headers.InitializeWebRTC L p)) = stdin p.
Proof.
  unfold Headers.InitializeWebRTC, Headers.guarded_InitializeWebRTC.
  unfold_monad. ask_library; split; try reflexivity;
    intros H; try discriminate H; discriminate.
Qed.

(** ** The null-handle checks *)

(** With the handle it needs null, each of [CreatePeerConnection],
    [AddVideoStream], [AddAudioStream] and [CreateOffer] prints its first
    line, reports "... not initialized" on standard error and returns
    ([false], for the three that return a value) without a single call of
    the library and without changing the process.  The two stream
    functions need both handles. *)
Theorem null_handle_checks_short_circuit
    (L : Library.library) (p : process Real.RealWebRTCClient) :
  (Real.peer_connection_factory_ (this p) = None ->
   Headers.CreatePeerConnection L p =
     (Normal false,
      [Enter m_CreatePeerConnection; Cout "Creating PeerConnection...";
       Cerr "Peer connection factory not initialized"], p))
  /\ (Real.peer_connection_factory_ (this p) = None
      \/ Real.peer_connection_ (this p) = None ->
      Headers.AddVideoStream L p =
        (Normal false,
         [Enter m_AddVideoStream; Cout "Adding video stream...";
          Cerr "Peer connection not initialized"], p)
      /\ Headers.AddAudioStream L p =
        (Normal false,
         [Enter m_AddAudioStream; Cout "Adding audio stream...";
          Cerr "Peer connection not initialized"], p))
  /\ (Real.peer_connection_ (this p) = None ->
      Headers.CreateOffer L p =
        (Normal tt,
         [Enter m_CreateOffer; Cout "Creating offer...";
          Cerr "Peer connection not initialized"], p)).
Proof.
  destruct p as [input wsa [f c]]. simpl.
  split; [|split].
  - intros ->. reflexivity.
  - intros [-> | ->]; [|destruct f]; split; reflexivity.
  - intros ->. reflexivity.
Qed.

(** The same checks on a fresh object, with a library that would throw
    if it were called. *)
Lemma null_handle_checks_short_circuit_witness :
  Real.peer_connection_factory_ (this (Real.start [] 0)) = None
  /\ result (Headers.CreatePeerConnection
               (Library.with_CreatePeerConnection
                  (fun _ => Thrown non_std_exception) Library.working)
               (Real.start [] 0)) = Normal false.
Proof.
  split; [reflexivity|].
  destruct (null_handle_checks_short_circuit
              (Library.with_CreatePeerConnection
                 (fun _ => Thrown non_std_exception) Library.working)
              (Real.start [] 0)) as (H & _ & _).
  rewrite (H eq_refl). reflexivity.
Defined.

(** ** [CreatePeerConnection] *)

(** [CreatePeerConnection] returns [true] exactly when the factory handle
    is set and the library gives a peer connection, which is then stored.
    When the library gives null instead, the handle is overwritten with
    null (a connection held before is lost) and the failure is reported;
    when the library throws, the exception leaves the function and the
    handle is as before.  The factory handle and standard input are never
    touched. *)
Theorem CreatePeerConnection_outcomes
    (L : Library.library) (p : process Real.RealWebRTCClient) :
  (result (Headers.CreatePeerConnection L p) = Normal true <->
   exists f c,
     Real.peer_connection_factory_ (this p) = Some f
     /\ Library.CreatePeerConnection L f = Normal (Some c))
  /\ (forall f c,
        Real.peer_connection_factory_ (this p) = Some f ->
        Library.CreatePeerConnection L f = Normal c ->
        Real.peer_connection_ (this (final (Headers.CreatePeerConnection L p))) = c)
  /\ (forall f,
        Real.peer_connection_factory_ (this p) = Some f ->
        Library.CreatePeerConnection L f = Normal None ->
        result (Headers.CreatePeerConnection L p) = Normal false
        /\ stderr_writes (events (Headers.CreatePeerConnection L p)) =
             ["Failed to create peer connection"])
  /\ (forall f e,
        Real.peer_connection_factory_ (this p) = Some f ->
        Library.CreatePeerConnection L f = Thrown e ->
        result (Headers.CreatePeerConnection L p) = Thrown e
        /\ final (Headers.CreatePeerConnection L p) = p)
  /\ Real.peer_connection_factory_ (this (final (Headers.CreatePeerConnection L p))) =
     Real.peer_connection_factory_ (this p)
  /\ stdin (final (Headers.CreatePeerConnection L p)) = stdin p.
Proof.
  destruct p as [input wsa [f c]].
  unfold Headers.CreatePeerConnection, Headers.guarded_CreatePeerConnection.
  unfold_monad. cbn [this Real.peer_connection_factory_ Real.peer_connection_].
  ask_library.
  all: repeat match goal with |- _ /\ _ => split | |- _ <-> _ => split end.
  all: try reflexivity.
  all: try (intros H; discriminate H).
  all: try (intros _; eauto; fail).
  all: try (intros (f0 & c0 & H1 & H2); congruence).
  all: try (intros f0 c0 H1 H2; congruence).
  all: try (intros f0 H1 H2; try congruence; split; reflexivity).
  all: try (intros f0 e0 H1 H2; try congruence; split; try reflexivity; congruence).
Qed.

(** A factory is there and the library gives null: the peer connection
    held before is gone. *)
Lemma CreatePeerConnection_outcomes_witness :
  Real.peer_connection_factory_
    (this (mkProcess [] 0%Z (Real.mkRealWebRTCClient (Some 3) (Some 4)))) = Some 3
  /\ Library.CreatePeerConnection
       (Library.with_CreatePeerConnection (fun _ => Normal None) Library.working) 3 =
     Normal None
  /\ Real.peer_connection_
       (this (final (Headers.CreatePeerConnection
                       (Library.with_CreatePeerConnection (fun _ => Normal None)
                          Library.working)
                       (mkProcess [] 0%Z
                          (Real.mkRealWebRTCClient (Some 3) (Some 4)))))) = None.
Proof.
  split; [reflexivity|]. split; [reflexivity|].
  destruct (CreatePeerConnection_outcomes
              (Library.with_CreatePeerConnection (fun _ => Normal None)
                 Library.working)
              (mkProcess [] 0%Z (Real.mkRealWebRTCClient (Some 3) (Some 4))))
    as (_ & H & _).
  exact (H 3 None eq_refl eq_refl).
Defined.

(** ** Who writes what *)

(** The loop over the devices changes nothing in the process, and no
    null-handle check fires in it. *)
Lemma list_devices_frame (L : Library.library) (d : nat)
    (remaining i : nat) (p : process Real.RealWebRTCClient) :
  final (Headers.list_devices L d i remaining p) = p
  /\ guard_fired (events (Headers.list_devices L d i remaining p)) = false
  /\ calls (events (Headers.list_devices L d i remaining p)) = []
  /\ stdin_reads (events (Headers.list_devices L d i remaining p)) = [].
Proof.
  revert i. induction remaining as [|k IH]; intros i; [repeat split|].
  specialize (IH (S i)). cbn [Headers.list_devices].
  remember (Headers.list_devices L d (S i) k) as rest eqn:Hrest.
  clear Hrest. revert IH. unfold_monad.
  ask_library; try (intros _; repeat split; fail);
    destruct (rest p) as [[r out] p']; intros (-> & Ig & Ic & Ir);
    repeat split; assumption.
Qed.

Ltac run_loop :=
  match goal with
  | |- context [Headers.list_devices ?L ?d ?i ?k ?p] =>
      let H := fresh "Hloop" in
      pose proof (list_devices_frame L d k i p) as H;
      destruct (Headers.list_devices L d i k p) as [[? loop_out] ?];
      unfold final, events in H; cbn [fst snd] in H;
      destruct H as (-> & Hloop_guard & Hloop_calls & Hloop_reads)
  end.

(** The four guarded member functions that set no handle leave the whole
    process as it was. *)
Lemma stream_operations_frame
    (L : Library.library) (p : process Real.RealWebRTCClient) :
  final (Headers.AddVideoStream L p) = p
  /\ final (Headers.AddAudioStream L p) = p
  /\ final (Headers.StartVideoCapture L p) = p
  /\ final (Headers.CreateOffer L p) = p.
Proof.
  destruct p as [input wsa [f c]].
  split; [|split; [|split]].
  - unfold Headers.AddVideoStream, Headers.guarded_AddVideoStream,
      Headers.CreateVideoCapturer.
    unfold_monad. cbn [this Real.peer_connection_factory_ Real.peer_connection_].
    ask_library; reflexivity.
  - unfold Headers.AddAudioStream, Headers.guarded_AddAudioStream.
    unfold_monad. cbn [this Real.peer_connection_factory_ Real.peer_connection_].
    ask_library; reflexivity.
  - unfold Headers.StartVideoCapture, Headers.guarded_StartVideoCapture.
    unfold_monad. ask_library; try reflexivity.
    run_loop. ask_library; reflexivity.
  - unfold Headers.CreateOffer, Headers.guarded_CreateOffer.
    unfold_monad. cbn [this Real.peer_connection_factory_ Real.peer_connection_].
    ask_library; reflexivity.
Qed.

(** Only [InitializeWebRTC] writes the factory handle and only
    [CreatePeerConnection] writes the peer connection; the other four
    guarded member functions leave the data members and all the rest of
    the process as it was.  None of the six reads standard input.  This
    holds whatever the library answers, also when it throws. *)
Theorem only_two_operations_write_the_handles
    (L : Library.library) (p : process Real.RealWebRTCClient) :
  Real.peer_connection_ (this (final (Headers.InitializeWebRTC L p))) =
    Real.peer_connection_ (this p)
  /\ Real.peer_connection_factory_
       (this (final (Headers.CreatePeerConnection L p))) =
     Real.peer_connection_factory_ (this p)
  /\ final (Headers.AddVideoStream L p) = p
  /\ final (Headers.AddAudioStream L p) = p
  /\ final (Headers.StartVideoCapture L p) = p
  /\ final (Headers.CreateOffer L p) = p
  /\ stdin (final (Headers.InitializeWebRTC L p)) = stdin p
  /\ stdin (final (Headers.CreatePeerConnection L p)) = stdin p.
Proof.
  destruct (stream_operations_frame L p) as (F1 & F2 & F3 & F4).
  split; [|split; [|repeat split; try assumption]].
  - unfold Headers.InitializeWebRTC, Headers.guarded_InitializeWebRTC.
    unfold_monad. ask_library; reflexivity.
  - destruct p as [input wsa [f c]].
    unfold Headers.CreatePeerConnection, Headers.guarded_CreatePeerConnection.
    unfold_monad. cbn [this Real.peer_connection_factory_ Real.peer_connection_].
    ask_library; reflexivity.
  - apply (InitializeWebRTC_sets_handle L p).
  - destruct p as [input wsa [f c]].
    unfold Headers.CreatePeerConnection, Headers.guarded_CreatePeerConnection.
    unfold_monad. cbn [this Real.peer_connection_factory_ Real.peer_connection_].
    ask_library; reflexivity.
Qed.

(** ** Listing the devices *)

Lemma stdout_writes_app (t1 t2 : list event) :
  stdout_writes (t1 ++ t2) = stdout_writes t1 ++ stdout_writes t2.
Proof. apply flat_map_app. Qed.

Lemma stderr_writes_app (t1 t2 : list event) :
  stderr_writes (t1 ++ t2) = stderr_writes t1 ++ stderr_writes t2.
Proof. apply flat_map_app. Qed.

Lemma stdout_writes_map_Cout (l : list string) : stdout_writes (map Cout l) = l.
Proof. induction l as [|s l IH]; simpl; [reflexivity | now rewrite IH]. Qed.

Lemma stderr_writes_map_Cout (l : list string) : stderr_writes (map Cout l) = [].
Proof. induction l as [|s l IH]; simpl; [reflexivity | exact IH]. Qed.

Lemma list_devices_lists (L : Library.library) (d : nat)
    (answers : nat -> Library.device_name_answer)
    (remaining i : nat) (p : process Real.RealWebRTCClient) :
  (forall j, i <= j < i + remaining ->
     Library.GetDeviceName L m_StartVideoCapture d j = Normal (answers j)) ->
  Headers.list_devices L d i remaining p =
    (Normal tt,
     map (fun j => Cout ("Device " ++ decimal j ++ ": "
                         ++ Library.device_name (answers j))%string)
         (filter (fun j => Z.eqb (Library.code (answers j)) 0) (seq i remaining)),
     p).
Proof.
  revert i. induction remaining as [|k IH]; intros i Hans; [reflexivity|].
  cbn [Headers.list_devices seq filter].
  assert (Hi : Library.GetDeviceName L m_StartVideoCapture d i = Normal (answers i))
    by (apply Hans; lia).
  assert (Hrest : Headers.list_devices L d (S i) k p =
                  (Normal tt,
                   map (fun j => Cout ("Device " ++ decimal j ++ ": "
                                       ++ Library.device_name (answers j))%string)
                       (filter (fun j => Z.eqb (Library.code (answers j)) 0)
                               (seq (S i) k)),
                   p))
    by (apply IH; intros j Hj; apply Hans; lia).
  unfold bind at 1. unfold lift at 1. rewrite Hi.
  unfold bind at 1.
  destruct (Z.eqb (Library.code (answers i)) 0).
  - unfold cout, emit. rewrite Hrest. reflexivity.
  - unfold ret. rewrite Hrest. reflexivity.
Qed.

(** When the library gives a device-info object, a count [n] and an answer
    for each of the [n] indices, [StartVideoCapture] prints the count in
    decimal and then one line for each index whose name query returned 0,
    in increasing order, and nothing for the others; it ends with
    "Video capture initialized!" and writes nothing to standard error. *)
Theorem StartVideoCapture_lists_named_devices
    (L : Library.library) (p : process Real.RealWebRTCClient)
    (d n : nat) (answers : nat -> Library.device_name_answer) :
  Library.CreateDeviceInfo L m_StartVideoCapture = Normal (Some d) ->
  Library.NumberOfDevices L m_StartVideoCapture d = Normal n ->
  (forall i, i < n ->
     Library.GetDeviceName L m_StartVideoCapture d i = Normal (answers i)) ->
  result (Headers.StartVideoCapture L p) = Normal tt
  /\ stdout_writes (events (Headers.StartVideoCapture L p)) =
       ["Starting video capture...";
        ("Found " ++ decimal n ++ " video devices")%string]
       ++ map (fun i => ("Device " ++ decimal i ++ ": "
                         ++ Library.device_name (answers i))%string)
              (filter (fun i => Z.eqb (Library.code (answers i)) 0) (seq 0 n))
       ++ ["Video capture initialized!"]
  /\ stderr_writes (events (Headers.StartVideoCapture L p)) = [].
Proof.
  intros Hinfo Hcount Hnames.
  assert (Hrun :
    Headers.StartVideoCapture L p =
      (Normal tt,
       [Enter m_StartVideoCapture; Cout "Starting video capture...";
        Cout ("Found " ++ decimal n ++ " video devices")%string]
       ++ map Cout
            (map (fun i => ("Device " ++ decimal i ++ ": "
                            ++ Library.device_name (answers i))%string)
                 (filter (fun i => Z.eqb (Library.code (answers i)) 0) (seq 0 n)))
       ++ [Cout "Video capture initialized!"],
       p)).
  { unfold Headers.StartVideoCapture, Headers.guarded_StartVideoCapture.
    unfold_monad. rewrite Hinfo, Hcount.
    rewrite (list_devices_lists L d answers n 0 p)
      by (intros j Hj; apply Hnames; lia).
    rewrite map_map. reflexivity. }
  rewrite Hrun. unfold result, events. cbn [fst snd].
  rewrite !stdout_writes_app, !stderr_writes_app,
    stdout_writes_map_Cout, stderr_writes_map_Cout.
  repeat split.
Qed.

Lemma StartVideoCapture_lists_named_devices_witness :
  Library.CreateDeviceInfo Library.working m_StartVideoCapture = Normal (Some 5)
  /\ Library.NumberOfDevices Library.working m_StartVideoCapture 5 = Normal 2
  /\ stdout_writes (events (Headers.StartVideoCapture Library.working (Real.start [] 0))) =
       ["Starting video capture..."; "Found 2 video devices";
        "Device 0: Front camera"; "Video capture initialized!"].
Proof.
  split; [reflexivity|]. split; [reflexivity|].
  exact (proj1 (proj2 (StartVideoCapture_lists_named_devices
                         Library.working (Real.start [] 0) 5 2
                         (fun i => if Nat.eqb i 0
                                   then Library.mkDeviceName 0 "Front camera" "cam0"
                                   else Library.mkDeviceName (-1) "" "")
                         eq_refl eq_refl (fun i _ => eq_refl)))).
Defined.

(** ** Which camera [AddVideoStream] uses *)

(** Given a device-info object: with no device at all the capturer is the
    library's generated test pattern; with one or more devices only the
    first is ever asked for its name, and the capturer is the one the
    library makes for it, or null when its name query fails: there is no
    falling back to the test pattern then, and [AddVideoStream], its two
    handles set, gives up with "Failed to create video capturer". *)
Theorem CreateVideoCapturer_device_choice
    (L : Library.library) (p : process Real.RealWebRTCClient) (d : nat) :
  Library.CreateDeviceInfo L m_AddVideoStream = Normal (Some d) ->
  (Library.NumberOfDevices L m_AddVideoStream d = Normal 0 ->
   Headers.CreateVideoCapturer L p = (Library.CreateSquareFrameGenerator L, [], p))
  /\ (forall n g,
        Library.NumberOfDevices L m_AddVideoStream d = Normal (S n) ->
        Library.GetDeviceName L m_AddVideoStream d 0 = Normal g ->
        Headers.CreateVideoCapturer L p =
          ((if Z.eqb (Library.code g) 0
            then Library.CreateDeviceCapturer L (Library.device_id g)
            else Normal None), [], p))
  /\ (forall n g f c,
        Library.NumberOfDevices L m_AddVideoStream d = Normal (S n) ->
        Library.GetDeviceName L m_AddVideoStream d 0 = Normal g ->
        Z.eqb (Library.code g) 0 = false ->
        this p = Real.mkRealWebRTCClient (Some f) (Some c) ->
        Headers.AddVideoStream L p =
          (Normal false,
           [Enter m_AddVideoStream; Cout "Adding video stream...";
            Cerr "Failed to create video capturer"], p)).
Proof.
  intros Hinfo. split; [|split].
  - intros Hcount. unfold Headers.CreateVideoCapturer. unfold_monad.
    rewrite Hinfo, Hcount. cbn [Nat.eqb].
    destruct (Library.CreateSquareFrameGenerator L); reflexivity.
  - intros n g Hcount Hname. unfold Headers.CreateVideoCapturer. unfold_monad.
    rewrite Hinfo, Hcount, Hname. cbn [Nat.eqb].
    destruct (Z.eqb (Library.code g) 0); [|reflexivity].
    destruct (Library.CreateDeviceCapturer L (Library.device_id g)); reflexivity.
  - intros n g f c Hcount Hname Hcode Hthis.
    destruct p as [input wsa obj]. simpl in Hthis. subst obj.
    unfold Headers.AddVideoStream, Headers.guarded_AddVideoStream,
      Headers.CreateVideoCapturer.
    unfold_monad. cbn [this Real.peer_connection_factory_ Real.peer_connection_].
    rewrite Hinfo, Hcount, Hname. cbn [Nat.eqb]. rewrite Hcode. reflexivity.
Qed.

(** The library [working] has two cameras; the first one is used. *)
Lemma CreateVideoCapturer_device_choice_witness :
  Library.CreateDeviceInfo Library.working m_AddVideoStream = Normal (Some 5)
  /\ Library.NumberOfDevices Library.working m_AddVideoStream 5 = Normal 2
  /\ result (Headers.CreateVideoCapturer Library.working (Real.start [] 0)) =
       Normal (Some 7).
Proof.
  split; [reflexivity|]. split; [reflexivity|].
  destruct (CreateVideoCapturer_device_choice Library.working (Real.start [] 0) 5
              eq_refl) as (_ & H & _).
  rewrite (H 1 (Library.mkDeviceName 0 "Front camera" "cam0") eq_refl eq_refl).
  reflexivity.
Defined.

(** ** The shape of [main] *)

(** [main] prints its three lines, constructs the client (which sets both
    handles to null), runs [Run], destroys the client, and maps the way
    [Run] ended to the exit code. *)
Lemma Headers_main_shape (w : bool) (L : Library.library)
    (p : process Real.RealWebRTCClient) :
  let p0 := with_members p (Real.mkRealWebRTCClient None None) in
  events (Headers.main w L p) =
    [Cout "ðŸŽ¥ Real WebRTC Native Video Streaming Client";
     Cout "Using WebRTC C++ Source Code Patterns";
     Cout ("==========================================" ++ LF)%string]
    ++ events (Headers.constructor w p)
    ++ events (Headers.Run L p0)
    ++ events (Real.destructor w p0)
    ++ match result (Headers.Run L p0) with
       | Thrown (std_exception what) => [Cerr ("Error: " ++ what)%string]
       | _ => []
       end
  /\ result (Headers.main w L p) =
     match result (Headers.Run L p0) with
     | Normal _ => Normal 0%Z
     | Thrown (std_exception _) => Normal 1%Z
     | Thrown non_std_exception => Thrown non_std_exception
     end
  /\ final (Headers.main w L p) = final (Headers.Run L p0).
Proof.
  destruct p as [input wsa obj]. cbv zeta.
  unfold Headers.main, Headers.try_block, Headers.constructor,
    Headers.constructor_tail, Real.destructor.
  remember (Headers.Run L) as run eqn:Hrun. clear Hrun.
  cbv [bind ret emit cout cerr set_this with_members call_WSAStartup
       call_WSACleanup try_catch_main with_destructor result events final
       fst snd stdin WSAStartup_result this].
  destruct w; [destruct (Z.eqb wsa 0)|]; cbn [negb];
    destruct (run _) as [[[u|[what|]] out] p'];
    cbn [app]; repeat rewrite <- app_assoc; repeat split.
Qed.

(** ** Early returns of [Run] *)

Lemma InitializeWebRTC_any_process (L : Library.library)
    (p p' : process Real.RealWebRTCClient) :
  result (Headers.InitializeWebRTC L p') = result (Headers.InitializeWebRTC L p)
  /\ events (Headers.InitializeWebRTC L p') = events (Headers.InitializeWebRTC L p)
  /\ calls (events (Headers.InitializeWebRTC L p)) = [m_InitializeWebRTC]
  /\ stdin_reads (events (Headers.InitializeWebRTC L p)) = []
  /\ guard_fired (events (Headers.InitializeWebRTC L p)) = false.
Proof.
  unfold Headers.InitializeWebRTC, Headers.guarded_InitializeWebRTC.
  unfold_monad. ask_library; repeat split.
Qed.

Lemma Run_when_InitializeWebRTC_fails (L : Library.library)
    (p : process Real.RealWebRTCClient) :
  result (Headers.InitializeWebRTC L p) = Normal false ->
  Headers.Run L p =
    (Normal tt,
     [Enter m_Run;
      Cout (LF ++ "=== Real WebRTC Native Client Running ===")%string;
      Cout "This uses actual WebRTC C++ source code patterns";
      Cout ("========================================" ++ LF)%string]
     ++ events (Headers.InitializeWebRTC L p)
     ++ [Cerr "Failed to initialize WebRTC"],
     final (Headers.InitializeWebRTC L p)).
Proof.
  unfold Headers.Run. cbv [bind emit cout cerr result events final fst snd].
  destruct (Headers.InitializeWebRTC L p) as [[r out] p1].
  intros ->. reflexivity.
Qed.

Lemma calls_app (t1 t2 : list event) : calls (t1 ++ t2) = calls t1 ++ calls t2.
Proof. apply flat_map_app. Qed.

Lemma stdin_reads_app (t1 t2 : list event) :
  stdin_reads (t1 ++ t2) = stdin_reads t1 ++ stdin_reads t2.
Proof. apply flat_map_app. Qed.

Lemma Headers_constructor_events (w : bool) (p : process Real.RealWebRTCClient) :
  calls (events (Headers.constructor w p)) = [m_constructor]
  /\ stdin_reads (events (Headers.constructor w p)) = []
  /\ guard_fired (events (Headers.constructor w p)) = false.
Proof. by_cases; repeat split. Qed.

Lemma Real_destructor_events (w : bool) (p : process Real.RealWebRTCClient) :
  calls (events (Real.destructor w p)) = [m_destructor]
  /\ stdin_reads (events (Real.destructor w p)) = []
  /\ guard_fired (events (Real.destructor w p)) = false.
Proof. by_cases; repeat split. Qed.

(** When [InitializeWebRTC] returns [false], the program reports "Failed
    to initialize WebRTC" and ends at once: no other operation is entered,
    there is no prompt and no read from standard input (the program does
    not wait), the client is destroyed, and the exit code is 0 all the
    same. *)
Theorem failed_initialization_ends_the_run_with_exit_code_0
    (w : bool) (L : Library.library) (p : process Real.RealWebRTCClient) :
  result (Headers.InitializeWebRTC L p) = Normal false ->
  result (Headers.main w L p) = Normal 0%Z
  /\ events (Headers.main w L p) =
       [Cout "ðŸŽ¥ Real WebRTC Native Video Streaming Client";
        Cout "Using WebRTC C++ Source Code Patterns";
        Cout ("==========================================" ++ LF)%string]
       ++ events (Headers.constructor w p)
       ++ [Enter m_Run;
           Cout (LF ++ "=== Real WebRTC Native Client Running ===")%string;
           Cout "This uses actual WebRTC C++ source code patterns";
           Cout ("========================================" ++ LF)%string]
       ++ events (Headers.InitializeWebRTC L p)
       ++ [Cerr "Failed to initialize WebRTC"]
       ++ events (Real.destructor w p)
  /\ calls (events (Headers.main w L p)) =
       [m_constructor; m_Run; m_InitializeWebRTC; m_destructor]
  /\ stdin_reads (events (Headers.main w L p)) = []
  /\ stdin (final (Headers.main w L p)) = stdin p.
Proof.
  intros Hfail.
  pose (p0 := with_members p (Real.mkRealWebRTCClient None None)).
  destruct (InitializeWebRTC_any_process L p p0) as (Hr & He & Hc & Hs & _).
  assert (Hfail0 : result (Headers.InitializeWebRTC L p0) = Normal false)
    by (rewrite Hr; exact Hfail).
  destruct (Headers_main_shape w L p) as (Me & Mr & Mf). fold p0 in Me, Mr, Mf.
  pose proof (Run_when_InitializeWebRTC_fails L p0 Hfail0) as HRun.
  assert (Re : events (Headers.Run L p0) =
               [Enter m_Run;
                Cout (LF ++ "=== Real WebRTC Native Client Running ===")%string;
                Cout "This uses actual WebRTC C++ source code patterns";
                Cout ("========================================" ++ LF)%string]
               ++ events (Headers.InitializeWebRTC L p)
               ++ [Cerr "Failed to initialize WebRTC"])
    by (rewrite HRun, <- He; reflexivity).
  assert (Rr : result (Headers.Run L p0) = Normal tt) by (rewrite HRun; reflexivity).
  assert (Rf : final (Headers.Run L p0) = final (Headers.InitializeWebRTC L p0))
    by (rewrite HRun; reflexivity).
  rewrite Re, Rr in Me. rewrite Rr in Mr. rewrite Rf in Mf.
  assert (Hd : events (Real.destructor w p0) = events (Real.destructor w p))
    by (destruct w; reflexivity).
  rewrite Hd, app_nil_r, <- !app_assoc in Me.
  destruct (Headers_constructor_events w p) as (Cc & Cs & _).
  destruct (Real_destructor_events w p) as (Dc & Ds & _).
  split; [exact Mr|]. split; [exact Me|].
  rewrite Me, Mf.
  rewrite !calls_app, !stdin_reads_app, Cc, Cs, Dc, Ds, Hc, Hs.
  split; [reflexivity|]. split; [reflexivity|].
  apply (InitializeWebRTC_sets_handle L p0).
Qed.

Lemma failed_initialization_ends_the_run_with_exit_code_0_witness :
  result (Headers.InitializeWebRTC
            (Library.with_CreateDefaultTaskQueueFactory (Normal None) Library.working)
            (Real.start ["a"%char] 0)) = Normal false
  /\ result (Headers.main true
               (Library.with_CreateDefaultTaskQueueFactory (Normal None)
                  Library.working)
               (Real.start ["a"%char] 0)) = Normal 0%Z
  /\ stdin (final (Headers.main true
                     (Library.with_CreateDefaultTaskQueueFactory (Normal None)
                        Library.working)
                     (Real.start ["a"%char] 0))) = ["a"%char].
Proof.
  split; [reflexivity|].
  destruct (failed_initialization_ends_the_run_with_exit_code_0 true
              (Library.with_CreateDefaultTaskQueueFactory (Normal None)
                 Library.working)
              (Real.start ["a"%char] 0) eq_refl)
    as (Hres & _ & _ & _ & Hin).
  split; [exact Hres | exact Hin].
Defined.

(** ** The null-handle checks never fire in [Run] *)

Lemma guard_fired_app (t1 t2 : list event) :
  guard_fired (t1 ++ t2) = orb (guard_fired t1) (guard_fired t2).
Proof. apply existsb_app. Qed.

Lemma guard_fired_bind {A B} (c : M Real.RealWebRTCClient A)
    (k : A -> M Real.RealWebRTCClient B) (p : process Real.RealWebRTCClient) :
  guard_fired (events (c p)) = false ->
  (forall a, result (c p) = Normal a ->
             guard_fired (events (k a (final (c p)))) = false) ->
  guard_fired (events (bind c k p)) = false.
Proof.
  intros Hc Hk. destruct (result (c p)) as [a|e] eqn:Hr.
  - destruct (bind_normal c k p a Hr) as (_ & -> & _).
    rewrite guard_fired_app, Hc, (Hk a eq_refl). reflexivity.
  - destruct (bind_thrown c k p e Hr) as (_ & -> & _). exact Hc.
Qed.

(** A check fires only when its handle is null. *)
Lemma guards_quiet_when_handles_set (L : Library.library)
    (p : process Real.RealWebRTCClient) :
  (Real.peer_connection_factory_ (this p) <> None ->
   guard_fired (events (Headers.CreatePeerConnection L p)) = false)
  /\ (Real.peer_connection_factory_ (this p) <> None ->
      Real.peer_connection_ (this p) <> None ->
      guard_fired (events (Headers.AddVideoStream L p)) = false
      /\ guard_fired (events (Headers.AddAudioStream L p)) = false)
  /\ guard_fired (events (Headers.StartVideoCapture L p)) = false
  /\ (Real.peer_connection_ (this p) <> None ->
      guard_fired (events (Headers.CreateOffer L p)) = false).
Proof.
  destruct p as [input wsa [f c]].
  cbn [this Real.peer_connection_factory_ Real.peer_connection_].
  split; [|split; [|split]].
  - intros Hf. destruct f as [f|]; [|congruence].
    unfold Headers.CreatePeerConnection, Headers.guarded_CreatePeerConnection.
    unfold_monad. cbn [this Real.peer_connection_factory_ Real.peer_connection_].
    ask_library; reflexivity.
  - intros Hf Hc. destruct f as [f|]; [|congruence].
    destruct c as [c|]; [|congruence]. split.
    + unfold Headers.AddVideoStream, Headers.guarded_AddVideoStream,
        Headers.CreateVideoCapturer.
      unfold_monad.
      cbn [this Real.peer_connection_factory_ Real.peer_connection_].
      ask_library; reflexivity.
    + unfold Headers.AddAudioStream, Headers.guarded_AddAudioStream.
      unfold_monad.
      cbn [this Real.peer_connection_factory_ Real.peer_connection_].
      ask_library; reflexivity.
  - unfold Headers.StartVideoCapture, Headers.guarded_StartVideoCapture.
    unfold_monad. ask_library; try reflexivity.
    run_loop.
    ask_library; cbn [guard_fired existsb is_guard_message orb];
      try assumption.
    fold (guard_fired (loop_out ++ [Cout "Video capture initialized!"])).
    rewrite guard_fired_app, Hloop_guard. reflexivity.
  - intros Hc. destruct c as [c|]; [|congruence].
    unfold Headers.CreateOffer, Headers.guarded_CreateOffer.
    unfold_monad. cbn [this Real.peer_connection_factory_ Real.peer_connection_].
    ask_library; reflexivity.
Qed.

Lemma CreatePeerConnection_sets_handle (L : Library.library)
    (p : process Real.RealWebRTCClient) :
  result (Headers.CreatePeerConnection L p) = Normal true ->
  Real.peer_connection_ (this (final (Headers.CreatePeerConnection L p))) <> None
  /\ Real.peer_connection_factory_
       (this (final (Headers.CreatePeerConnection L p))) <> None.
Proof.
  destruct p as [input wsa [f c]].
  unfold Headers.CreatePeerConnection, Headers.guarded_CreatePeerConnection.
  unfold_monad. cbn [this Real.peer_connection_factory_ Real.peer_connection_].
  ask_library; intros H; try discriminate H; split; discriminate.
Qed.

(** In [Run] no null-handle check ever fires, whatever the library
    answers and whatever the handles held before: each operation is
    reached only after the one that sets the handle it tests has returned
    [true].  So neither "Peer connection factory not initialized" nor
    "Peer connection not initialized" is ever printed by [Run], nor by
    [main]. *)
Theorem null_handle_checks_never_fire_in_Run
    (w : bool) (L : Library.library) (p : process Real.RealWebRTCClient) :
  guard_fired (events (Headers.Run L p)) = false
  /\ guard_fired (events (Headers.main w L p)) = false
  /\ ~ In (Cerr "Peer connection factory not initialized")
          (events (Headers.main w L p))
  /\ ~ In (Cerr "Peer connection not initialized") (events (Headers.main w L p)).
Proof.
  assert (HRun : forall q, guard_fired (events (Headers.Run L q)) = false).
  { intros q. unfold Headers.Run.
    do 4 (apply guard_fired_bind; [reflexivity | intros _ _]).
    cbn [final emit cout snd].
    apply guard_fired_bind;
      [apply (InitializeWebRTC_any_process L q q) | intros ok Hok].
    destruct ok; [|reflexivity]. cbn [negb].
    pose proof (proj1 (InitializeWebRTC_sets_handle L q) Hok) as Hf.
    set (q1 := final (Headers.InitializeWebRTC L q)) in *.
    apply guard_fired_bind;
      [apply (guards_quiet_when_handles_set L q1); exact Hf | intros ok' Hok'].
    destruct ok'; [|reflexivity]. cbn [negb].
    destruct (CreatePeerConnection_sets_handle L q1 Hok') as (Hc2 & Hf2).
    set (q2 := final (Headers.CreatePeerConnection L q1)) in *.
    destruct (guards_quiet_when_handles_set L q2) as (_ & Hs & Hv & Ho).
    destruct (stream_operations_frame L q2) as (F1 & F2 & F3 & F4).
    apply guard_fired_bind; [apply Hs; assumption | intros _ _]. rewrite F1.
    apply guard_fired_bind; [apply Hs; assumption | intros _ _]. rewrite F2.
    apply guard_fired_bind; [exact Hv | intros _ _]. rewrite F3.
    apply guard_fired_bind; [apply Ho; assumption | intros _ _]. rewrite F4.
    destruct q2 as [input wsa obj]. destruct input; reflexivity. }
  assert (Hmain : guard_fired (events (Headers.main w L p)) = false).
  { destruct (Headers_main_shape w L p) as (Me & _ & _). cbv zeta in Me.
    rewrite Me, !guard_fired_app, HRun.
    rewrite (proj2 (proj2 (Headers_constructor_events w p))).
    rewrite (proj2 (proj2 (Real_destructor_events w _))).
    destruct (result (Headers.Run L _)) as [u|[what|]]; reflexivity. }
  split; [apply HRun|]. split; [exact Hmain|].
  unfold guard_fired in Hmain.
  split; intros Hin.
  - assert (existsb is_guard_message (events (Headers.main w L p)) = true)
      by (apply existsb_exists; eexists; split; [exact Hin | reflexivity]).
    congruence.
  - assert (existsb is_guard_message (events (Headers.main w L p)) = true)
      by (apply existsb_exists; eexists; split; [exact Hin | reflexivity]).
    congruence.
Qed.

(** ** The exit code *)

(** The exit code says how [Run] ended and nothing more: it is 0 exactly
    when [Run] returns (be it after a failed initialization) and 1 exactly
    when a [std::exception] leaves [Run].  In that case the client is
    destroyed first and the last thing written is "Error: " with the
    exception's text, on standard error. *)
Theorem exit_code_tells_how_Run_ended
    (w : bool) (L : Library.library) (p : process Real.RealWebRTCClient) :
  (result (Headers.main w L p) = Normal 0%Z <->
   result (Headers.Run L (with_members p (Real.mkRealWebRTCClient None None))) =
     Normal tt)
  /\ (result (Headers.main w L p) = Normal 1%Z <->
      exists what,
        result (Headers.Run L (with_members p (Real.mkRealWebRTCClient None None))) =
          Thrown (std_exception what))
  /\ (forall what,
        result (Headers.Run L (with_members p (Real.mkRealWebRTCClient None None))) =
          Thrown (std_exception what) ->
        exists before,
          events (Headers.main w L p) =
            before ++ events (Real.destructor w p)
                   ++ [Cerr ("Error: " ++ what)%string]).
Proof.
  destruct (Headers_main_shape w L p) as (Me & Mr & _). cbv zeta in Me, Mr.
  assert (Hd : events (Real.destructor w
                         (with_members p (Real.mkRealWebRTCClient None None))) =
               events (Real.destructor w p))
    by (destruct w; reflexivity).
  rewrite Hd in Me. clear Hd.
  destruct (result (Headers.Run L _)) as [[]|[what|]].
  - rewrite Mr. split; [split; reflexivity|].
    split; [split; [discriminate | intros (what & H); discriminate H]|].
    intros what H; discriminate H.
  - rewrite Mr. split; [split; discriminate|].
    split; [split; [intros _; exists what; reflexivity | reflexivity]|].
    intros what' H. injection H as <-.
    eexists. rewrite Me, !app_assoc. reflexivity.
  - rewrite Mr. split; [split; discriminate|].
    split; [split; [discriminate | intros (what & H); discriminate H]|].
    intros what H; discriminate H.
Qed.

(** A library whose [CreatePeerConnection] throws: the exit code is 1. *)
Lemma exit_code_tells_how_Run_ended_witness :
  result (Headers.Run
            (Library.with_CreatePeerConnection
               (fun _ => Thrown (std_exception "bad_alloc")) Library.working)
            (with_members (Real.start ["a"%char] 0)
               (Real.mkRealWebRTCClient None None))) =
    Thrown (std_exception "bad_alloc")
  /\ result (Headers.main true
               (Library.with_CreatePeerConnection
                  (fun _ => Thrown (std_exception "bad_alloc")) Library.working)
               (Real.start ["a"%char] 0)) = Normal 1%Z.
Proof.
  split; [reflexivity|].
  destruct (exit_code_tells_how_Run_ended true
              (Library.with_CreatePeerConnection
                 (fun _ => Thrown (std_exception "bad_alloc")) Library.working)
              (Real.start ["a"%char] 0)) as (_ & H & _).
  apply H. exists "bad_alloc". reflexivity.
Defined.

(** ** [Run] does not look at what the stream functions return *)

(** Each operation enters itself only and leaves standard input alone. *)
Lemma operations_enter_once (L : Library.library)
    (p : process Real.RealWebRTCClient) :
  (calls (events (Headers.CreatePeerConnection L p)) = [m_CreatePeerConnection]
   /\ stdin_reads (events (Headers.CreatePeerConnection L p)) = []
   /\ stdin (final (Headers.CreatePeerConnection L p)) = stdin p)
  /\ (calls (events (Headers.AddVideoStream L p)) = [m_AddVideoStream]
      /\ stdin_reads (events (Headers.AddVideoStream L p)) = [])
  /\ (calls (events (Headers.AddAudioStream L p)) = [m_AddAudioStream]
      /\ stdin_reads (events (Headers.AddAudioStream L p)) = [])
  /\ (calls (events (Headers.StartVideoCapture L p)) = [m_StartVideoCapture]
      /\ stdin_reads (events (Headers.StartVideoCapture L p)) = [])
  /\ (calls (events (Headers.CreateOffer L p)) = [m_CreateOffer]
      /\ stdin_reads (events (Headers.CreateOffer L p)) = []).
Proof.
  destruct p as [input wsa [f c]].
  split; [|split; [|split; [|split]]].
  - unfold Headers.CreatePeerConnection, Headers.guarded_CreatePeerConnection.
    unfold_monad. cbn [this Real.peer_connection_factory_ Real.peer_connection_].
    ask_library; repeat split.
  - unfold Headers.AddVideoStream, Headers.guarded_AddVideoStream,
      Headers.CreateVideoCapturer.
    unfold_monad. cbn [this Real.peer_connection_factory_ Real.peer_connection_].
    ask_library; split; reflexivity.
  - unfold Headers.AddAudioStream, Headers.guarded_AddAudioStream.
    unfold_monad. cbn [this Real.peer_connection_factory_ Real.peer_connection_].
    ask_library; split; reflexivity.
  - unfold Headers.StartVideoCapture, Headers.guarded_StartVideoCapture.
    unfold_monad. ask_library; try (split; reflexivity).
    run_loop.
    ask_library; cbn [calls stdin_reads flat_map calls_of reads_of app];
      fold (calls (loop_out ++ [Cout "Video capture initialized!"]));
      fold (stdin_reads (loop_out ++ [Cout "Video capture initialized!"]));
      fold (calls loop_out); fold (stdin_reads loop_out);
      rewrite ?calls_app, ?stdin_reads_app, Hloop_calls, Hloop_reads;
      split; reflexivity.
  - unfold Headers.CreateOffer, Headers.guarded_CreateOffer.
    unfold_monad. cbn [this Real.peer_connection_factory_ Real.peer_connection_].
    ask_library; split; reflexivity.
Qed.


(** Once [InitializeWebRTC] and [CreatePeerConnection] have returned
    [true], [Run] goes through all the other operations, whether
    [AddVideoStream] and [AddAudioStream] return [true] or [false]: if
    none of them ends by an exception, [Run] prints the closing banner and
    the prompt and reads once from standard input. *)
Theorem Run_ignores_stream_failures
    (L : Library.library) (p : process Real.RealWebRTCClient) (b1 b2 : bool) :
  result (Headers.InitializeWebRTC L p) = Normal true ->
  result (Headers.CreatePeerConnection L (final (Headers.InitializeWebRTC L p))) =
    Normal true ->
  result (Headers.AddVideoStream L
            (final (Headers.CreatePeerConnection L
                      (final (Headers.InitializeWebRTC L p))))) = Normal b1 ->
  result (Headers.AddAudioStream L
            (final (Headers.CreatePeerConnection L
                      (final (Headers.InitializeWebRTC L p))))) = Normal b2 ->
  result (Headers.StartVideoCapture L
            (final (Headers.CreatePeerConnection L
                      (final (Headers.InitializeWebRTC L p))))) = Normal tt ->
  result (Headers.CreateOffer L
            (final (Headers.CreatePeerConnection L
                      (final (Headers.InitializeWebRTC L p))))) = Normal tt ->
  result (Headers.Run L p) = Normal tt
  /\ calls (events (Headers.Run L p)) =
       [m_Run; m_InitializeWebRTC; m_CreatePeerConnection; m_AddVideoStream;
        m_AddAudioStream; m_StartVideoCapture; m_CreateOffer; m_RenderVideo]
  /\ stdin_reads (events (Headers.Run L p)) = [hd_error (stdin p)]
  /\ last (stdout_writes (events (Headers.Run L p))) "" = "Press Enter to exit..."
  /\ stdin (final (Headers.Run L p)) = tl (stdin p).
Proof.
  intros Hi Hc Hv Ha Hs Ho.
  set (q1 := final (Headers.InitializeWebRTC L p)) in *.
  set (q2 := final (Headers.CreatePeerConnection L q1)) in *.
  destruct (stream_operations_frame L q2) as (F1 & F2 & F3 & F4).
  destruct (operations_enter_once L q2) as (_ & Cv & Ca & Cs & Co).
  destruct (operations_enter_once L q1) as (Cc & _).
  destruct (InitializeWebRTC_any_process L p p) as (_ & _ & Ci & Ri & _).
  assert (Hin : stdin q2 = stdin p).
  { unfold q2. rewrite (proj2 (proj2 Cc)). unfold q1.
    apply (InitializeWebRTC_sets_handle L p). }
  assert (Hshape :
    Headers.Run L p =
      (Normal tt,
       [Enter m_Run;
        Cout (LF ++ "=== Real WebRTC Native Client Running ===")%string;
        Cout "This uses actual WebRTC C++ source code patterns";
        Cout ("========================================" ++ LF)%string]
       ++ events (Headers.InitializeWebRTC L p)
       ++ events (Headers.CreatePeerConnection L q1)
       ++ events (Headers.AddVideoStream L q2)
       ++ events (Headers.AddAudioStream L q2)
       ++ events (Headers.StartVideoCapture L q2)
       ++ events (Headers.CreateOffer L q2)
       ++ events (Real.RenderVideo q2)
       ++ events (Headers.closing_banner q2)
       ++ [Cout "Press Enter to exit..."; CinGet (hd_error (stdin p))],
       mkProcess (tl (stdin p)) (WSAStartup_result q2) (this q2))).
  { unfold Headers.Run.
    rewrite <- Hin. clear Hin Cv Ca Cs Co Cc Ci Ri.
    revert Hi Hc Hv Ha Hs Ho F1 F2 F3 F4. unfold q2, q1. clear q2 q1.
    generalize (Headers.InitializeWebRTC L) as init.
    generalize (Headers.CreatePeerConnection L) as cpc.
    generalize (Headers.AddVideoStream L) as avs.
    generalize (Headers.AddAudioStream L) as aas.
    generalize (Headers.StartVideoCapture L) as svc.
    generalize (Headers.CreateOffer L) as co.
    intros co svc aas avs cpc init.
    cbv [bind emit cout cerr cin_get result events final fst snd
         Real.RenderVideo Headers.closing_banner].
    destruct (init p) as [[r0 o0] q1]. intros ->. simpl.
    destruct (cpc q1) as [[r1 o1] q2]. intros ->. simpl.
    destruct (avs q2) as [[r2 o2] q3]. intros -> Ha Hs Ho ->.
    revert Ha Hs Ho. simpl.
    destruct (aas q2) as [[r3 o3] q4]. intros -> Hs Ho ->.
    revert Hs Ho. simpl.
    destruct (svc q2) as [[r4 o4] q5]. intros -> Ho ->.
    revert Ho. simpl.
    destruct (co q2) as [[r5 o5] q6]. intros -> ->. simpl.
    destruct q2 as [input wsa obj]. simpl.
    destruct input; simpl; repeat rewrite <- app_assoc; reflexivity. }
  assert (Er : result (Headers.Run L p) = Normal tt)
    by (rewrite Hshape; reflexivity).
  assert (Ef : stdin (final (Headers.Run L p)) = tl (stdin p))
    by (rewrite Hshape; reflexivity).
  apply (f_equal events) in Hshape.
  change (events (?r, ?t, ?q)) with t in Hshape.
  rewrite Er, Ef, Hshape. clear Hshape.
  split; [reflexivity|].
  rewrite !calls_app, !stdin_reads_app, !stdout_writes_app.
  rewrite Ci, Ri, (proj1 Cc), (proj1 (proj2 Cc)), (proj1 Cv), (proj2 Cv),
    (proj1 Ca), (proj2 Ca), (proj1 Cs), (proj2 Cs), (proj1 Co), (proj2 Co).
  split; [reflexivity|]. split; [reflexivity|]. split; [|reflexivity].
  rewrite !app_assoc. apply last_last.
Qed.

(** A library without device information: [AddVideoStream] returns
    [false], and [Run] goes on to the prompt. *)
Lemma Run_ignores_stream_failures_witness :
  result (Headers.AddVideoStream
            (Library.with_CreateDeviceInfo (fun _ => Normal None) Library.working)
            (final (Headers.CreatePeerConnection
                      (Library.with_CreateDeviceInfo (fun _ => Normal None)
                         Library.working)
                      (final (Headers.InitializeWebRTC
                                (Library.with_CreateDeviceInfo
                                   (fun _ => Normal None) Library.working)
                                (Real.start ["a"%char] 0)))))) = Normal false
  /\ stdin_reads
       (events (Headers.Run
                  (Library.with_CreateDeviceInfo (fun _ => Normal None)
                     Library.working)
                  (Real.start ["a"%char] 0))) = [Some "a"%char].
Proof.
  split; [reflexivity|].
  exact (proj1 (proj2 (proj2
           (Run_ignores_stream_failures
              (Library.with_CreateDeviceInfo (fun _ => Normal None) Library.working)
              (Real.start ["a"%char] 0) false true
              eq_refl eq_refl eq_refl eq_refl eq_refl eq_refl)))).
Defined.
